(** * The change detector of src/tools/changeDetector.ts

    A shallow embedding of the [window.changeDetector] object that the
    tool injects into the page (the [changeDetectorJS] snippet), followed by
    the properties of its three operations [detectChanges],
    [updateThresholds] and [resetBaseline].

    Modelling conventions.
    - Counts ([querySelectorAll(..).length], the maximal z-index) are
      integers: [Z].  The viewport height, the thresholds and the percent
      figures are JS numbers that need not be integers: they are exact
      rationals, [Q]; rounding of binary floating point is not modelled.
    - [this.baseline] is [null] or a metrics object: [option Metrics.t].
    - [getMetrics()] reads the DOM and [Date.now()] reads the clock: both are
      inputs of [detectChanges] ([current] and [now]).
    - [this.log] only writes to the console and is left out.
    - A JS [TypeError] (reading a property of [undefined]) is an explicit
      error value; the operations live in a small state-and-error monad over
      the detector object.
    - The percent figures of the model are exact where the code's are
      rounded; statements about reasons and levels that hinge on a percent
      are phrased on the percent figures that the result itself reports in
      its [metrics]. *)

From Stdlib Require Import ZArith QArith Qround Qabs Bool List String Ascii Lia.
From Stdlib Require Import Numbers.DecimalString.
Import ListNotations.

Local Open Scope Z_scope.

(** ** JS strings and number formatting *)

Module Js.

(** [String.prototype.toLowerCase] on the ASCII range. *)
Definition lowerChar (c : ascii) : ascii :=
  let n := N_of_ascii c in
  if ((65 <=? n) && (n <=? 90))%N then ascii_of_N (n + 32) else c.

Fixpoint toLowerCase (s : string) : string :=
  match s with
  | EmptyString => EmptyString
  | String c s' => String (lowerChar c) (toLowerCase s')
  end.

(** The character class [[a-z0-9]]. *)
Definition isLowerAlnum (c : ascii) : bool :=
  let n := N_of_ascii c in
  (((97 <=? n) && (n <=? 122)) || ((48 <=? n) && (n <=? 57)))%N.

(** [s.replace(/[^a-z0-9]/g, '_')]: the pattern matches one character at a
    time, so every character outside the class becomes one underscore. *)
Fixpoint replaceNonAlnum (s : string) : string :=
  match s with
  | EmptyString => EmptyString
  | String c s' =>
      String (if isLowerAlnum c then c else "_"%char) (replaceNonAlnum s')
  end.

(** [s.includes(needle)]: [needle] is a prefix of some suffix of [s]. *)
Fixpoint includes (needle s : string) : bool :=
  String.prefix needle s
  || match s with
     | EmptyString => false
     | String _ s' => includes needle s'
     end.

(** [`${n}`] for an integer [n]: its decimal digits, with a minus sign
    (the form JS prints below 10^21, far above any count of a page). *)
Definition numToString (n : Z) : string :=
  NilZero.string_of_int (Z.to_int n).

(** [x.toFixed(1)]: the sign is split off, [n] is the integer for which
    [n / 10] is closest to [|x|] (the larger one on a tie), and the last
    digit of [n] goes behind the point. *)
Definition toFixed1 (x : Q) : string :=
  let n := Qfloor (Qabs x * 10 + (1 # 2))%Q in
  ((if Qle_bool 0 x then "" else "-")
     ++ numToString (n / 10) ++ "." ++ numToString (n mod 10))%string.

(** [a || 1] on numbers: zero is the falsy one. *)
Definition orOneZ (a : Z) : Z := if a =? 0 then 1 else a.
Definition orOneQ (a : Q) : Q := if Qeq_bool a 0 then 1%Q else a.

(** [if (c) arr.push(r)]. *)
Definition pushIf (c : bool) (r : string) (arr : list string) : list string :=
  if c then arr ++ [r] else arr.

(** [arr.some(p)]. *)
Definition some {A} (p : A -> bool) (arr : list A) : bool := existsb p arr.

Inductive Error : Type := TypeError | RangeError.

End Js.

(** ** Data: metrics, thresholds, results *)

(** The object built by [getMetrics]. *)
Module Metrics.
Record t : Type := mk {
  elements : Z;
  url : string;
  dialogs : Z;
  overlays : Z;
  forms : Z;
  inputs : Z;
  buttons : Z;
  links : Z;
  viewportHeight : Q;
  visibleElements : Z;
  maxZIndex : Z;
  fixedElements : Z;
  absoluteElements : Z
}.
End Metrics.

(** [this.thresholds.major]. *)
Module Major.
Record t : Type := mk {
  elementDelta : Q;
  dialogDelta : Q;
  overlayDelta : Q;
  formDelta : Q;
  zIndexDelta : Q;
  viewportDelta : Q
}.
End Major.

(** [this.thresholds.minor]. *)
Module Minor.
Record t : Type := mk {
  elementDelta : Q;
  viewportDelta : Q
}.
End Minor.

Module Thresholds.
Record t : Type := mk {
  major : Major.t;
  minor : Minor.t
}.
End Thresholds.

(** The argument of [updateThresholds] ([thresholdsSchema]): every tier and
    every field is optional. *)
Module PartialMajor.
Record t : Type := mk {
  elementDelta : option Q;
  dialogDelta : option Q;
  overlayDelta : option Q;
  formDelta : option Q;
  zIndexDelta : option Q;
  viewportDelta : option Q
}.
End PartialMajor.

Module PartialMinor.
Record t : Type := mk {
  elementDelta : option Q;
  viewportDelta : option Q
}.
End PartialMinor.

Module PartialThresholds.
Record t : Type := mk {
  major : option PartialMajor.t;
  minor : option PartialMinor.t
}.
End PartialThresholds.

(** The local [delta] of [detectChanges]. *)
Module Delta.
Record t : Type := mk {
  elements : Z;
  dialogs : Z;
  overlays : Z;
  forms : Z;
  inputs : Z;
  buttons : Z;
  links : Z;
  viewportHeight : Q;
  visibleElements : Z;
  zIndex : Z;
  urlChanged : bool;
  fixedElements : Z;
  absoluteElements : Z
}.
End Delta.

(** The local [percentChange] of [detectChanges]. *)
Module PercentChange.
Record t : Type := mk {
  elements : Q;
  viewport : Q;
  visible : Q
}.
End PercentChange.

Module Level.
Inductive t : Type := none | minor | major.

Definition eqb (a b : t) : bool :=
  match a, b with
  | none, none | minor, minor | major, major => true
  | _, _ => false
  end.
End Level.

(** The [metrics] field of a result.  On the first observation [delta] is
    the empty object and there is no [percentChange]; [baseline] is whatever
    [this.baseline] holds when the result is built. *)
Module ResultMetrics.
Record t : Type := mk {
  current : Metrics.t;
  delta : option Delta.t;
  baseline : option Metrics.t;
  percentChange : option PercentChange.t
}.
End ResultMetrics.

(** The object returned by [detectChanges]; [reason] is only set on the
    first observation. *)
Module Result.
Record t : Type := mk {
  changed : bool;
  level : Level.t;
  reason : option string;
  shouldTakeScreenshot : bool;
  shouldTakeSnapshot : bool;
  suggestedFilename : string;
  reasons : list string;
  majorReasons : list string;
  minorReasons : list string;
  metrics : ResultMetrics.t
}.
End Result.

(** The objects returned by [updateThresholds] and [resetBaseline]. *)
Module UpdateReply.
Record t : Type := mk {
  success : bool;
  thresholds : Thresholds.t
}.
End UpdateReply.

Module ResetReply.
Record t : Type := mk {
  success : bool;
  message : string;
  previousBaseline : option Metrics.t
}.
End ResetReply.

(** The mutable part of [window.changeDetector]. *)
Module Detector.
Record t : Type := mk {
  baseline : option Metrics.t;
  thresholds : Thresholds.t
}.
End Detector.

(** ** The operations of [window.changeDetector] *)

Module ChangeDetector.

Local Open Scope string_scope.

(** Computations over the detector object that may throw. *)
Definition M (A : Type) : Type := Detector.t -> Js.Error + (A * Detector.t).

Definition ret {A} (a : A) : M A := fun d => inr (a, d).

Definition bind {A B} (c : M A) (k : A -> M B) : M B :=
  fun d => match c d with
           | inl e => inl e
           | inr (a, d') => k a d'
           end.

Definition lift {A} (r : Js.Error + A) : M A :=
  fun d => match r with
           | inl e => inl e
           | inr a => inr (a, d)
           end.

Definition getBaseline : M (option Metrics.t) :=
  fun d => inr (Detector.baseline d, d).

Definition setBaseline (b : option Metrics.t) : M unit :=
  fun d => inr (tt, Detector.mk b (Detector.thresholds d)).

Definition getThresholds : M Thresholds.t :=
  fun d => inr (Detector.thresholds d, d).

Definition setThresholds (th : Thresholds.t) : M unit :=
  fun d => inr (tt, Detector.mk (Detector.baseline d) th).

Notation "x <- c ;; k" := (bind c (fun x => k))
  (at level 61, c at next level, right associativity).
Notation "c ;;; k" := (bind c (fun _ => k))
  (at level 61, right associativity).

(** The object literal of the snippet: no baseline, the default thresholds. *)
Definition defaultThresholds : Thresholds.t :=
  Thresholds.mk (Major.mk 100 1 1 1 500 30) (Minor.mk 20 5)%Q.

Definition initial : Detector.t := Detector.mk None defaultThresholds.

(** [a >= b] and [a > 0] as the snippet writes them. *)
Definition geq (a b : Q) : bool := Qle_bool b a.
Definition positive (a : Z) : bool := (0 <? a)%Z.

(** [const delta = { ... }]. *)
Definition delta (current baseline : Metrics.t) : Delta.t :=
  {| Delta.elements := Z.abs (Metrics.elements current - Metrics.elements baseline);
     Delta.dialogs := Metrics.dialogs current - Metrics.dialogs baseline;
     Delta.overlays := Metrics.overlays current - Metrics.overlays baseline;
     Delta.forms := Z.abs (Metrics.forms current - Metrics.forms baseline);
     Delta.inputs := Z.abs (Metrics.inputs current - Metrics.inputs baseline);
     Delta.buttons := Z.abs (Metrics.buttons current - Metrics.buttons baseline);
     Delta.links := Z.abs (Metrics.links current - Metrics.links baseline);
     Delta.viewportHeight :=
       Qabs (Metrics.viewportHeight current - Metrics.viewportHeight baseline);
     Delta.visibleElements :=
       Z.abs (Metrics.visibleElements current - Metrics.visibleElements baseline);
     Delta.zIndex := Metrics.maxZIndex current - Metrics.maxZIndex baseline;
     Delta.urlChanged := negb (String.eqb (Metrics.url current) (Metrics.url baseline));
     Delta.fixedElements :=
       Z.abs (Metrics.fixedElements current - Metrics.fixedElements baseline);
     Delta.absoluteElements :=
       Z.abs (Metrics.absoluteElements current - Metrics.absoluteElements baseline) |}.

(** [const percentChange = { ... }], as exact quotients; the code's figures
    are these rounded to the nearest double after the division and after the
    product. *)
Definition percentChange (dl : Delta.t) (baseline : Metrics.t) : PercentChange.t :=
  {| PercentChange.elements :=
       (inject_Z (Delta.elements dl)
          / inject_Z (Js.orOneZ (Metrics.elements baseline)) * 100)%Q;
     PercentChange.viewport :=
       (Delta.viewportHeight dl
          / Js.orOneQ (Metrics.viewportHeight baseline) * 100)%Q;
     PercentChange.visible :=
       (inject_Z (Delta.visibleElements dl)
          / inject_Z (Js.orOneZ (Metrics.visibleElements baseline)) * 100)%Q |}.

(** The nine pushes to [majorReasons], in the order of the snippet. *)
Definition majorReasons (dl : Delta.t) (pc : PercentChange.t) (th : Thresholds.t)
  : list string :=
  let mj := Thresholds.major th in
  let arr := @nil string in
  let arr := Js.pushIf (Delta.urlChanged dl) "URL changed" arr in
  let arr := Js.pushIf (positive (Delta.dialogs dl))
               (Js.numToString (Delta.dialogs dl) ++ " dialog(s) appeared") arr in
  let arr := Js.pushIf (positive (Delta.overlays dl))
               (Js.numToString (Delta.overlays dl) ++ " overlay(s) appeared") arr in
  let arr := Js.pushIf (geq (inject_Z (Delta.forms dl)) (Major.formDelta mj))
               ("Form count changed by " ++ Js.numToString (Delta.forms dl)) arr in
  let arr := Js.pushIf (geq (inject_Z (Delta.elements dl)) (Major.elementDelta mj))
               (Js.numToString (Delta.elements dl) ++ " elements changed") arr in
  let arr := Js.pushIf (geq (inject_Z (Delta.zIndex dl)) (Major.zIndexDelta mj))
               ("Z-index increased by " ++ Js.numToString (Delta.zIndex dl)) arr in
  let arr := Js.pushIf (positive (Delta.fixedElements dl))
               (Js.numToString (Delta.fixedElements dl) ++ " fixed elements changed") arr in
  let arr := Js.pushIf (positive (Delta.absoluteElements dl))
               (Js.numToString (Delta.absoluteElements dl)
                  ++ " absolute elements changed") arr in
  let arr := Js.pushIf (geq (PercentChange.viewport pc) (Major.viewportDelta mj))
               ("Viewport height changed "
                  ++ Js.toFixed1 (PercentChange.viewport pc) ++ "%") arr in
  arr.

(** The four pushes to [minorReasons], guarded by
    [majorReasons.length === 0]. *)
Definition minorReasons (mr : list string) (dl : Delta.t) (pc : PercentChange.t)
    (th : Thresholds.t) : list string :=
  let mn := Thresholds.minor th in
  let arr := @nil string in
  if (List.length mr =? 0)%nat then
    let arr := Js.pushIf (geq (inject_Z (Delta.elements dl)) (Minor.elementDelta mn))
                 (Js.numToString (Delta.elements dl) ++ " elements changed") arr in
    let arr := Js.pushIf (geq (PercentChange.visible pc) (Minor.viewportDelta mn))
                 (Js.toFixed1 (PercentChange.visible pc) ++ "% visibility changes") arr in
    let arr := Js.pushIf (positive (Delta.buttons dl))
                 (Js.numToString (Delta.buttons dl) ++ " button(s) changed") arr in
    let arr := Js.pushIf (positive (Delta.inputs dl))
                 (Js.numToString (Delta.inputs dl) ++ " input(s) changed") arr in
    arr
  else arr.

(** [const level = ...]. *)
Definition level (mr mn : list string) : Level.t :=
  if (0 <? List.length mr)%nat then Level.major
  else if (0 <? List.length mn)%nat then Level.minor
  else Level.none.

(** The predicate of [majorReasons.some(...)]. *)
Definition snapshotSignal (r : string) : bool :=
  Js.includes "dialog" r
  || Js.includes "overlay" r
  || Js.includes "URL changed" r
  || Js.includes "Form count changed" r.

(** [let suggestedFilename = ...]; [majorReasons[0]] of an empty array is
    [undefined], whose [toLowerCase] throws. *)
Definition suggestedFilename (lv : Level.t) (mr : list string) (now : Z)
  : Js.Error + string :=
  match lv with
  | Level.major =>
      match nth_error mr 0 with
      | Some r0 =>
          let reason := Js.replaceNonAlnum (Js.toLowerCase r0) in
          inr ("major_change_" ++ reason ++ "_" ++ Js.numToString now ++ ".png")
      | None => inl Js.TypeError
      end
  | Level.minor => inr ("minor_change_" ++ Js.numToString now ++ ".png")
  | Level.none => inr "no_change.png"
  end.

(** [detectChanges], with the metrics just collected and the clock as
    arguments. *)
Definition detectChanges (current : Metrics.t) (now : Z) : M Result.t :=
  b <- getBaseline ;;
  match b with
  | None =>
      setBaseline (Some current) ;;;
      stored <- getBaseline ;;
      ret {| Result.changed := false;
             Result.level := Level.none;
             Result.reason := Some "Baseline initialized";
             Result.shouldTakeScreenshot := false;
             Result.shouldTakeSnapshot := false;
             Result.suggestedFilename := "baseline_set.png";
             Result.reasons := [];
             Result.majorReasons := [];
             Result.minorReasons := [];
             Result.metrics := ResultMetrics.mk current None stored None |}
  | Some baseline =>
      th <- getThresholds ;;
      let dl := delta current baseline in
      let pc := percentChange dl baseline in
      let mr := majorReasons dl pc th in
      let mn := minorReasons mr dl pc th in
      let lv := level mr mn in
      let shouldTakeScreenshot := negb (Level.eqb lv Level.none) in
      let shouldTakeSnapshot := Js.some snapshotSignal mr in
      name <- lift (suggestedFilename lv mr now) ;;
      let result :=
        {| Result.changed := negb (Level.eqb lv Level.none);
           Result.level := lv;
           Result.reason := None;
           Result.shouldTakeScreenshot := shouldTakeScreenshot;
           Result.shouldTakeSnapshot := shouldTakeSnapshot;
           Result.suggestedFilename := name;
           Result.reasons := (mr ++ mn)%list;
           Result.majorReasons := mr;
           Result.minorReasons := mn;
           Result.metrics :=
             ResultMetrics.mk current (Some dl) (Some baseline) (Some pc) |} in
      setBaseline (Some current) ;;;
      ret result
  end.

(** [Object.assign(target, source)] on each tier: the fields the source has
    overwrite the target's. *)
Definition assignField (target : Q) (source : option Q) : Q :=
  match source with
  | Some v => v
  | None => target
  end.

Definition assignMajor (target : Major.t) (source : PartialMajor.t) : Major.t :=
  {| Major.elementDelta :=
       assignField (Major.elementDelta target) (PartialMajor.elementDelta source);
     Major.dialogDelta :=
       assignField (Major.dialogDelta target) (PartialMajor.dialogDelta source);
     Major.overlayDelta :=
       assignField (Major.overlayDelta target) (PartialMajor.overlayDelta source);
     Major.formDelta :=
       assignField (Major.formDelta target) (PartialMajor.formDelta source);
     Major.zIndexDelta :=
       assignField (Major.zIndexDelta target) (PartialMajor.zIndexDelta source);
     Major.viewportDelta :=
       assignField (Major.viewportDelta target) (PartialMajor.viewportDelta source) |}.

Definition assignMinor (target : Minor.t) (source : PartialMinor.t) : Minor.t :=
  {| Minor.elementDelta :=
       assignField (Minor.elementDelta target) (PartialMinor.elementDelta source);
     Minor.viewportDelta :=
       assignField (Minor.viewportDelta target) (PartialMinor.viewportDelta source) |}.

(** [updateThresholds]. *)
Definition updateThresholds (newThresholds : PartialThresholds.t)
  : M UpdateReply.t :=
  th <- getThresholds ;;
  match PartialThresholds.major newThresholds with
  | Some src =>
      setThresholds (Thresholds.mk (assignMajor (Thresholds.major th) src)
                                   (Thresholds.minor th))
  | None => ret tt
  end ;;;
  th <- getThresholds ;;
  match PartialThresholds.minor newThresholds with
  | Some src =>
      setThresholds (Thresholds.mk (Thresholds.major th)
                                   (assignMinor (Thresholds.minor th) src))
  | None => ret tt
  end ;;;
  th <- getThresholds ;;
  ret (UpdateReply.mk true th).

(** [resetBaseline]. *)
Definition resetBaseline : M ResetReply.t :=
  oldBaseline <- getBaseline ;;
  setBaseline None ;;;
  ret (ResetReply.mk true "Baseline reset" oldBaseline).

(** A session: the calls the host makes on one detector, in order. *)
Inductive Call : Type :=
| CallDetect (current : Metrics.t) (now : Z)
| CallUpdate (newThresholds : PartialThresholds.t)
| CallReset.

Definition call (c : Call) : M unit :=
  match c with
  | CallDetect current now => detectChanges current now ;;; ret tt
  | CallUpdate p => updateThresholds p ;;; ret tt
  | CallReset => resetBaseline ;;; ret tt
  end.

Fixpoint run (cs : list Call) : M unit :=
  match cs with
  | [] => ret tt
  | c :: cs' => call c ;;; run cs'
  end.

(** The vector of the last [detectChanges] of a session, if any. *)
Fixpoint lastClassified (cs : list Call) : option Metrics.t :=
  match cs with
  | [] => None
  | c :: cs' =>
      match lastClassified cs' with
      | Some m => Some m
      | None => match c with
                | CallDetect current _ => Some current
                | _ => None
                end
      end
  end.

End ChangeDetector.

(** ** Vocabulary of the statements *)

Module Spec.

Local Open Scope string_scope.

(** What a session looks like from outside: the detector built by the
    snippet and configured with [th]. *)
Definition fresh (th : Thresholds.t) : Detector.t := Detector.mk None th.

(** The result of a first observation of [current]. *)
Definition firstObservation (current : Metrics.t) : Result.t :=
  {| Result.changed := false;
     Result.level := Level.none;
     Result.reason := Some "Baseline initialized";
     Result.shouldTakeScreenshot := false;
     Result.shouldTakeSnapshot := false;
     Result.suggestedFilename := "baseline_set.png";
     Result.reasons := [];
     Result.majorReasons := [];
     Result.minorReasons := [];
     Result.metrics := ResultMetrics.mk current None (Some current) None |}.

(** The major conditions with their reasons, in evaluation order. *)
Definition majorCandidates (dl : Delta.t) (pc : PercentChange.t)
    (th : Thresholds.t) : list (bool * string) :=
  let mj := Thresholds.major th in
  [ (Delta.urlChanged dl, "URL changed");
    (ChangeDetector.positive (Delta.dialogs dl),
      Js.numToString (Delta.dialogs dl) ++ " dialog(s) appeared");
    (ChangeDetector.positive (Delta.overlays dl),
      Js.numToString (Delta.overlays dl) ++ " overlay(s) appeared");
    (ChangeDetector.geq (inject_Z (Delta.forms dl)) (Major.formDelta mj),
      "Form count changed by " ++ Js.numToString (Delta.forms dl));
    (ChangeDetector.geq (inject_Z (Delta.elements dl)) (Major.elementDelta mj),
      Js.numToString (Delta.elements dl) ++ " elements changed");
    (ChangeDetector.geq (inject_Z (Delta.zIndex dl)) (Major.zIndexDelta mj),
      "Z-index increased by " ++ Js.numToString (Delta.zIndex dl));
    (ChangeDetector.positive (Delta.fixedElements dl),
      Js.numToString (Delta.fixedElements dl) ++ " fixed elements changed");
    (ChangeDetector.positive (Delta.absoluteElements dl),
      Js.numToString (Delta.absoluteElements dl) ++ " absolute elements changed");
    (ChangeDetector.geq (PercentChange.viewport pc) (Major.viewportDelta mj),
      "Viewport height changed " ++ Js.toFixed1 (PercentChange.viewport pc) ++ "%") ].

(** The reasons of the candidates whose condition holds. *)
Definition triggered (cands : list (bool * string)) : list string :=
  map snd (filter fst cands).

(** One character of a slug. *)
Definition slugChar (c : ascii) : ascii :=
  if Js.isLowerAlnum (Js.lowerChar c) then Js.lowerChar c else "_"%char.

(** The slug as the specification words it, non-alphanumeric characters
    "collapsed to underscore": a whole run of characters outside [[a-z0-9]]
    gives a single underscore.  Not what the snippet does; kept apart to be
    compared with [Js.replaceNonAlnum]. *)
Fixpoint collapseNonAlnum (s : string) : string :=
  match s with
  | EmptyString => EmptyString
  | String c s' =>
      if Js.isLowerAlnum c then String c (collapseNonAlnum s')
      else match s' with
           | EmptyString => "_"
           | String c' _ =>
               if Js.isLowerAlnum c' then String "_"%char (collapseNonAlnum s')
               else collapseNonAlnum s'
           end
  end.

(** A field after a merge: the field of the given tier when the tier and the
    field are there, the stored one otherwise. *)
Definition merged {T} (stored : Q) (tier : option T) (field : T -> option Q) : Q :=
  match tier with
  | Some src => match field src with
                | Some v => v
                | None => stored
                end
  | None => stored
  end.

(** Characters of the numbers that occur in reasons. *)
Definition numericChar (c : ascii) : bool :=
  let n := N_of_ascii c in
  (((48 <=? n) && (n <=? 57)) || (n =? 45) || (n =? 46))%N.

Fixpoint allChars (p : ascii -> bool) (s : string) : bool :=
  match s with
  | EmptyString => true
  | String c s' => p c && allChars p s'
  end.

Fixpoint occurs (c : ascii) (s : string) : bool :=
  match s with
  | EmptyString => false
  | String x s' => Ascii.eqb c x || occurs c s'
  end.

(** No character of [s] occurs in [needle]. *)
Definition foreign (needle s : string) : bool :=
  allChars (fun c => negb (occurs c needle)) s.

(** The two detectors of the non-interference statement: everything but
    [major.dialogDelta] and [major.overlayDelta] is shared. *)
Definition detectorWith (b : option Metrics.t) (e f z v : Q) (mn : Minor.t)
    (dialogDelta overlayDelta : Q) : Detector.t :=
  Detector.mk b (Thresholds.mk (Major.mk e dialogDelta overlayDelta f z v) mn).

(** All eight configured thresholds are strictly positive. *)
Definition allPositive (th : Thresholds.t) : Prop :=
  let mj := Thresholds.major th in
  let mn := Thresholds.minor th in
  (0 < Major.elementDelta mj /\ 0 < Major.dialogDelta mj
   /\ 0 < Major.overlayDelta mj /\ 0 < Major.formDelta mj
   /\ 0 < Major.zIndexDelta mj /\ 0 < Major.viewportDelta mj
   /\ 0 < Minor.elementDelta mn /\ 0 < Minor.viewportDelta mn)%Q.

End Spec.

(** ** The page side of [getMetrics] *)

(** Of [getMetrics] the two figures computed in the snippet itself, from the
    list [document.querySelectorAll('*')], are embedded; the other figures
    are lengths of selector queries and stay inputs. *)
Module Dom.

(** [el.getBoundingClientRect()], the fields read. *)
Record Rect : Type := mkRect {
  width : Q;
  height : Q;
  top : Q;
  bottom : Q
}.

(** An element: its rectangle and [parseInt(getComputedStyle(el).zIndex)],
    [None] for [NaN] (as for [auto]). *)
Record Element : Type := mkElement {
  rect : Rect;
  zIndex : option Z
}.

(** [a > b] and [a < b] on numbers. *)
Definition gt (a b : Q) : bool := negb (Qle_bool a b).
Definition lt (a b : Q) : bool := negb (Qle_bool b a).

(** The filter of [visibleElements]. *)
Definition isVisible (innerHeight : Q) (el : Element) : bool :=
  gt (width (rect el)) 0 && gt (height (rect el)) 0
  && lt (top (rect el)) innerHeight && gt (bottom (rect el)) 0.

(** [elements] and [visibleElements]. *)
Definition elements (all : list Element) : Z := Z.of_nat (List.length all).

Definition visibleElements (innerHeight : Q) (all : list Element) : Z :=
  Z.of_nat (List.length (filter (isVisible innerHeight) all)).

(** [parseInt(..) || 0]: [NaN] and [0], the falsy ones, both give [0]. *)
Definition orZero (z : option Z) : Z :=
  match z with
  | Some v => v
  | None => 0
  end.

Section Engine.

(** Whether the engine takes a call with that many arguments.  A spread
    passes one argument per element, and past the engine's limit the call
    throws a [RangeError]; where the limit lies is the engine's affair. *)
Variable acceptsArguments : nat -> bool.

(** [Math.max(first, ...rest)] on numbers that are not [NaN]. *)
Definition mathMax (first : Z) (rest : list Z) : Js.Error + Z :=
  if acceptsArguments (S (List.length rest))
  then inr (fold_left Z.max rest first)
  else inl Js.RangeError.

(** [maxZIndex]. *)
Definition maxZIndex (all : list Element) : Js.Error + Z :=
  mathMax 0 (map (fun el => orZero (zIndex el)) all).

End Engine.

End Dom.

(** ** The tools around the detector *)

(** The four tool handlers.  [window.changeDetector] is [undefined] or the
    detector object: [option Detector.t].  A response is the list of the
    [addResult] and [addCode] calls made on it; of a code block the comment
    line is fixed and the value that [JSON.stringify] prints is kept as a
    value.  A detection is given what [getMetrics] does on the page, a
    vector or a thrown error; failures of [page.evaluate] itself (a closed
    page) are outside the model. *)
Module Tools.

Local Open Scope string_scope.

Inductive Code : Type :=
| CodeInit (thresholds : option PartialThresholds.t)
| CodeDetect (result : Result.t)
| CodeReset (result : ResetReply.t)
| CodeUpdate (thresholds : Thresholds.t).

Inductive Call : Type :=
| AddResult (text : string)
| AddCode (code : Code).

(** What a handler leaves: the calls on the response, the page, and the
    error it rethrew, if any. *)
Record Outcome : Type := mkOutcome {
  calls : list Call;
  page : option Detector.t;
  thrown : option Js.Error
}.

Definition notInitialized : string :=
  "Change detector not initialized. Please call browser_init_change_detector first.".

(** [`${result.level}`]. *)
Definition levelName (lv : Level.t) : string :=
  match lv with
  | Level.none => "none"
  | Level.minor => "minor"
  | Level.major => "major"
  end.

(** [arr.join(sep)]. *)
Definition join (sep : string) (arr : list string) : string := String.concat sep arr.

Section Handlers.

(** [(error as Error).message]. *)
Variable message : Js.Error -> string.

(** The [catch] blocks: one result line, then the error again. *)
Definition failed (what : string) (e : Js.Error) (pg : option Detector.t) : Outcome :=
  mkOutcome [AddResult (what ++ message e)] pg (Some e).

(** [initChangeDetector.handle]: the snippet is evaluated whatever the page
    holds, then the given thresholds are applied. *)
Definition initChangeDetector (thresholds : option PartialThresholds.t)
    (pg : option Detector.t) : Outcome :=
  let installed := ChangeDetector.initial in
  let done (d : Detector.t) :=
    mkOutcome
      [AddResult "Change detector initialized successfully with logging enabled. Check browser console for detailed logs.";
       AddCode (CodeInit thresholds)]
      (Some d) None in
  match thresholds with
  | Some th =>
      match ChangeDetector.updateThresholds th installed with
      | inr (_, d) => done d
      | inl e => failed "Failed to initialize change detector: " e (Some installed)
      end
  | None => done installed
  end.

(** [detectChanges.handle].  On an initialised page the detector's
    [detectChanges] begins with [this.getMetrics()], which reads the page and
    may throw (no [document.body], too many elements for the spread of
    [maxZIndex]); [captured] is what that call does, the vector or the error.
    The error is thrown before the detector is touched and lands in the
    handler's [catch]. *)
Definition detectChanges (captured : Js.Error + Metrics.t) (now : Z)
    (pg : option Detector.t) : Outcome :=
  match pg with
  | None => mkOutcome [AddResult notInitialized] pg None
  | Some d =>
      match captured with
      | inl e => failed "Failed to detect changes: " e pg
      | inr current =>
      match ChangeDetector.detectChanges current now d with
      | inr (result, d') =>
          let head :=
            AddResult ("Change detection completed: "
                         ++ levelName (Result.level result)
                         ++ " level changes detected") in
          let body :=
            if Result.changed result then
              [AddResult ("Reasons: " ++ join ", " (Result.reasons result));
               AddResult ("Recommendations: "
                            ++ (if Result.shouldTakeScreenshot result
                                then "Take screenshot" else "No screenshot needed")
                            ++ ", "
                            ++ (if Result.shouldTakeSnapshot result
                                then "Take DOM snapshot" else "No DOM snapshot needed"));
               AddResult ("Suggested filename: " ++ Result.suggestedFilename result)]
            else [AddResult "No significant changes detected"] in
          mkOutcome ((head :: body) ++ [AddCode (CodeDetect result)])%list (Some d') None
      | inl e => failed "Failed to detect changes: " e pg
      end
      end
  end.

(** [resetChangeBaseline.handle]. *)
Definition resetChangeBaseline (pg : option Detector.t) : Outcome :=
  match pg with
  | None => mkOutcome [AddResult notInitialized] pg None
  | Some d =>
      match ChangeDetector.resetBaseline d with
      | inr (result, d') =>
          mkOutcome [AddResult "Change detection baseline reset successfully";
                     AddCode (CodeReset result)]
                    (Some d') None
      | inl e => failed "Failed to reset baseline: " e pg
      end
  end.

(** [updateChangeThresholds.handle]. *)
Definition updateChangeThresholds (thresholds : PartialThresholds.t)
    (pg : option Detector.t) : Outcome :=
  match pg with
  | None => mkOutcome [AddResult notInitialized] pg None
  | Some d =>
      match ChangeDetector.updateThresholds thresholds d with
      | inr (result, d') =>
          mkOutcome [AddResult "Change detection thresholds updated successfully";
                     AddCode (CodeUpdate (UpdateReply.thresholds result))]
                    (Some d') None
      | inl e => failed "Failed to update thresholds: " e pg
      end
  end.

(** The tools a client may invoke, with what the page supplies to them. *)
Inductive Invocation : Type :=
| Init (thresholds : option PartialThresholds.t)
| Detect (captured : Js.Error + Metrics.t) (now : Z)
| Reset
| Update (thresholds : PartialThresholds.t).

Definition invoke (i : Invocation) (pg : option Detector.t) : Outcome :=
  match i with
  | Init th => initChangeDetector th pg
  | Detect captured now => detectChanges captured now pg
  | Reset => resetChangeBaseline pg
  | Update th => updateChangeThresholds th pg
  end.

(** The outcomes of a sequence of invocations on one page, in order. *)
Fixpoint invokeAll (invs : list Invocation) (pg : option Detector.t)
  : list Outcome :=
  match invs with
  | [] => []
  | i :: invs' => let o := invoke i pg in o :: invokeAll invs' (page o)
  end.

End Handlers.

Definition isInit (i : Invocation) : bool :=
  match i with
  | Init _ => true
  | _ => false
  end.

End Tools.

(** ** snapshotConfig.ts *)

Module SnapshotConfig.

(** [process.env.PLAYWRIGHT_MCP_INCLUDE_SNAPSHOTS !== 'false']; an unset
    variable is [undefined]. *)
Definition includeSnapshots (env : option string) : bool :=
  match env with
  | Some v => negb (String.eqb v "false")
  | None => true
  end.

End SnapshotConfig.

(** ** Vocabulary of the laws *)

Module Laws.

(** A later partial configuration laid over an earlier one. *)
Definition orElse (later earlier : option Q) : option Q :=
  match later with
  | Some v => Some v
  | None => earlier
  end.

Definition overlayMajor (p q : PartialMajor.t) : PartialMajor.t :=
  {| PartialMajor.elementDelta :=
       orElse (PartialMajor.elementDelta q) (PartialMajor.elementDelta p);
     PartialMajor.dialogDelta :=
       orElse (PartialMajor.dialogDelta q) (PartialMajor.dialogDelta p);
     PartialMajor.overlayDelta :=
       orElse (PartialMajor.overlayDelta q) (PartialMajor.overlayDelta p);
     PartialMajor.formDelta :=
       orElse (PartialMajor.formDelta q) (PartialMajor.formDelta p);
     PartialMajor.zIndexDelta :=
       orElse (PartialMajor.zIndexDelta q) (PartialMajor.zIndexDelta p);
     PartialMajor.viewportDelta :=
       orElse (PartialMajor.viewportDelta q) (PartialMajor.viewportDelta p) |}.

Definition overlayMinor (p q : PartialMinor.t) : PartialMinor.t :=
  {| PartialMinor.elementDelta :=
       orElse (PartialMinor.elementDelta q) (PartialMinor.elementDelta p);
     PartialMinor.viewportDelta :=
       orElse (PartialMinor.viewportDelta q) (PartialMinor.viewportDelta p) |}.

Definition overlayTier {T} (ov : T -> T -> T) (p q : option T) : option T :=
  match p, q with
  | Some a, Some b => Some (ov a b)
  | Some a, None => Some a
  | None, _ => q
  end.

Definition overlay (p q : PartialThresholds.t) : PartialThresholds.t :=
  {| PartialThresholds.major :=
       overlayTier overlayMajor (PartialThresholds.major p) (PartialThresholds.major q);
     PartialThresholds.minor :=
       overlayTier overlayMinor (PartialThresholds.minor p) (PartialThresholds.minor q) |}.

(** A vector with another count of links. *)
Definition withLinks (l : Z) (m : Metrics.t) : Metrics.t :=
  {| Metrics.elements := Metrics.elements m;
     Metrics.url := Metrics.url m;
     Metrics.dialogs := Metrics.dialogs m;
     Metrics.overlays := Metrics.overlays m;
     Metrics.forms := Metrics.forms m;
     Metrics.inputs := Metrics.inputs m;
     Metrics.buttons := Metrics.buttons m;
     Metrics.links := l;
     Metrics.viewportHeight := Metrics.viewportHeight m;
     Metrics.visibleElements := Metrics.visibleElements m;
     Metrics.maxZIndex := Metrics.maxZIndex m;
     Metrics.fixedElements := Metrics.fixedElements m;
     Metrics.absoluteElements := Metrics.absoluteElements m |}.

(** The four major thresholds that are read, none above its counterpart. *)
Definition majorBelow (th th' : Thresholds.t) : Prop :=
  let mj := Thresholds.major th in
  let mj' := Thresholds.major th' in
  (Major.formDelta mj <= Major.formDelta mj'
   /\ Major.elementDelta mj <= Major.elementDelta mj'
   /\ Major.zIndexDelta mj <= Major.zIndexDelta mj'
   /\ Major.viewportDelta mj <= Major.viewportDelta mj')%Q.

(** The characters of a suggested file name. *)
Definition fileChar (c : ascii) : bool :=
  Js.isLowerAlnum c || Ascii.eqb c "_" || Ascii.eqb c ".".

Definition isUpdate (c : ChangeDetector.Call) : bool :=
  match c with
  | ChangeDetector.CallUpdate _ => true
  | _ => false
  end.

(** The major conditions and the minor conditions of a call. *)
Definition majorCondition (dl : Delta.t) (pc : PercentChange.t) (th : Thresholds.t)
  : bool :=
  let mj := Thresholds.major th in
  Delta.urlChanged dl
  || ChangeDetector.positive (Delta.dialogs dl)
  || ChangeDetector.positive (Delta.overlays dl)
  || ChangeDetector.geq (inject_Z (Delta.forms dl)) (Major.formDelta mj)
  || ChangeDetector.geq (inject_Z (Delta.elements dl)) (Major.elementDelta mj)
  || ChangeDetector.geq (inject_Z (Delta.zIndex dl)) (Major.zIndexDelta mj)
  || ChangeDetector.positive (Delta.fixedElements dl)
  || ChangeDetector.positive (Delta.absoluteElements dl)
  || ChangeDetector.geq (PercentChange.viewport pc) (Major.viewportDelta mj).

Definition minorCondition (dl : Delta.t) (pc : PercentChange.t) (th : Thresholds.t)
  : bool :=
  let mn := Thresholds.minor th in
  ChangeDetector.geq (inject_Z (Delta.elements dl)) (Minor.elementDelta mn)
  || ChangeDetector.geq (PercentChange.visible pc) (Minor.viewportDelta mn)
  || ChangeDetector.positive (Delta.buttons dl)
  || ChangeDetector.positive (Delta.inputs dl).

End Laws.

(** ** Properties *)

Import ChangeDetector.

(** *** How a call runs *)

Section Runs.

Variables (current : Metrics.t) (now : Z) (th : Thresholds.t).

(** With a non-empty list of major reasons the level is [major]. *)
Lemma level_cons (r : string) (mr mn : list string) :
  level (r :: mr) mn = Level.major.
Proof. reflexivity. Qed.

Lemma level_nil (mn : list string) :
  level [] mn = match mn with [] => Level.none | _ :: _ => Level.minor end.
Proof. destruct mn; reflexivity. Qed.

(** The minor checks are skipped as soon as there is a major reason. *)
Lemma minorReasons_cons (r : string) (mr : list string) dl pc :
  minorReasons (r :: mr) dl pc th = [].
Proof. reflexivity. Qed.

(** Building the file name never reads a missing array element. *)
Lemma suggestedFilename_defined (mr mn : list string) :
  exists name, suggestedFilename (level mr mn) mr now = inr name.
Proof.
  destruct mr as [|r mr].
  - rewrite level_nil. destruct mn; simpl; eauto.
  - rewrite level_cons. simpl. eauto.
Qed.

(** First observation: no baseline yet. *)
Lemma detectChanges_first :
  detectChanges current now (Spec.fresh th)
  = inr (Spec.firstObservation current, Detector.mk (Some current) th).
Proof. reflexivity. Qed.

(** Later observations: the result is assembled from the locals of
    [detectChanges], and the baseline slides to [current]. *)
Lemma detectChanges_next (b : Metrics.t) :
  let dl := delta current b in
  let pc := percentChange dl b in
  let mr := majorReasons dl pc th in
  let mn := minorReasons mr dl pc th in
  let lv := level mr mn in
  exists name,
    suggestedFilename lv mr now = inr name
    /\ detectChanges current now (Detector.mk (Some b) th)
       = inr ({| Result.changed := negb (Level.eqb lv Level.none);
                 Result.level := lv;
                 Result.reason := None;
                 Result.shouldTakeScreenshot := negb (Level.eqb lv Level.none);
                 Result.shouldTakeSnapshot := Js.some snapshotSignal mr;
                 Result.suggestedFilename := name;
                 Result.reasons := mr ++ mn;
                 Result.majorReasons := mr;
                 Result.minorReasons := mn;
                 Result.metrics :=
                   ResultMetrics.mk current (Some dl) (Some b) (Some pc) |},
              Detector.mk (Some current) th).
Proof.
  intros dl pc mr mn lv.
  destruct (suggestedFilename_defined mr mn) as [name Hname].
  exists name. split; [exact Hname|].
  subst lv mn mr pc dl.
  cbv beta zeta delta [detectChanges bind getBaseline getThresholds lift
                       setBaseline ret Detector.baseline Detector.thresholds].
  cbv beta iota.
  rewrite Hname. reflexivity.
Qed.

End Runs.

(** Whatever the detector holds, [detectChanges] returns, and leaves
    [current] as the baseline and the thresholds as they were. *)
Lemma detectChanges_state (current : Metrics.t) (now : Z) (d : Detector.t) :
  exists r,
    detectChanges current now d
    = inr (r, Detector.mk (Some current) (Detector.thresholds d)).
Proof.
  destruct d as [[b|] th]; cbn [Detector.thresholds].
  - destruct (detectChanges_next current now th b) as (name & _ & Hrun).
    eexists. exact Hrun.
  - eexists. apply detectChanges_first.
Qed.

Lemma updateThresholds_state (p : PartialThresholds.t) (d : Detector.t) :
  let th := Detector.thresholds d in
  let th' :=
    Thresholds.mk
      match PartialThresholds.major p with
      | Some src => assignMajor (Thresholds.major th) src
      | None => Thresholds.major th
      end
      match PartialThresholds.minor p with
      | Some src => assignMinor (Thresholds.minor th) src
      | None => Thresholds.minor th
      end in
  updateThresholds p d
  = inr (UpdateReply.mk true th', Detector.mk (Detector.baseline d) th').
Proof.
  destruct d as [b [mj mn]], p as [[pj|] [pn|]]; reflexivity.
Qed.

Lemma resetBaseline_state (d : Detector.t) :
  resetBaseline d
  = inr (ResetReply.mk true "Baseline reset" (Detector.baseline d),
         Detector.mk None (Detector.thresholds d)).
Proof. reflexivity. Qed.

(** A session never stops on an error, and its baseline is the one of the
    start, [None], or the last classified vector. *)
Lemma run_baseline (cs : list Call) :
  forall d, exists d',
    run cs d = inr (tt, d')
    /\ (Detector.baseline d' = None
        \/ Detector.baseline d' = lastClassified cs
        \/ (lastClassified cs = None
            /\ Detector.baseline d' = Detector.baseline d)).
Proof.
  induction cs as [|c cs IH]; intros d.
  - exists d. split; [reflexivity|]. right. right. split; reflexivity.
  - assert (Hc : exists d1, call c d = inr (tt, d1)
                 /\ match c with
                    | CallDetect m _ => Detector.baseline d1 = Some m
                    | CallUpdate _ => Detector.baseline d1 = Detector.baseline d
                    | CallReset => Detector.baseline d1 = None
                    end).
    { destruct c as [m t|p|]; unfold call, bind.
      - destruct (detectChanges_state m t d) as [r Hr]. rewrite Hr.
        eexists. split; reflexivity.
      - rewrite updateThresholds_state. eexists. split; reflexivity.
      - rewrite resetBaseline_state. eexists. split; reflexivity. }
    destruct Hc as (d1 & Hcall & Hb1).
    destruct (IH d1) as (d' & Hrun & Hinv).
    exists d'. split.
    + cbn [run]. unfold bind at 1. rewrite Hcall. exact Hrun.
    + cbn [lastClassified].
      destruct Hinv as [Hn|[Hl|[Hl Hsame]]].
      * left. exact Hn.
      * destruct (lastClassified cs) as [m|]; [right; left|left]; exact Hl.
      * rewrite Hl, Hsame.
        destruct c as [m t|p|].
        -- right. left. exact Hb1.
        -- right. right. split; [reflexivity|exact Hb1].
        -- left. exact Hb1.
Qed.

(** *** C1 *)

(** C1. On a call with a baseline: a non-empty list of major reasons comes
    with an empty list of minor reasons; the level is [major] exactly when
    there is a major reason, [minor] exactly when there is none but there is
    a minor reason, [none] exactly when both lists are empty; and [reasons]
    is the major reasons followed by the minor ones. *)
Theorem major_preempts_minor (current b : Metrics.t) (now : Z) (th : Thresholds.t) :
  exists r d',
    detectChanges current now (Detector.mk (Some b) th) = inr (r, d')
    /\ (Result.majorReasons r <> [] -> Result.minorReasons r = [])
    /\ (Result.level r = Level.major <-> Result.majorReasons r <> [])
    /\ (Result.level r = Level.minor
        <-> Result.majorReasons r = [] /\ Result.minorReasons r <> [])
    /\ (Result.level r = Level.none
        <-> Result.majorReasons r = [] /\ Result.minorReasons r = [])
    /\ Result.reasons r = Result.majorReasons r ++ Result.minorReasons r.
Proof.
  destruct (detectChanges_next current now th b) as (name & _ & Hrun).
  do 2 eexists. split; [exact Hrun|].
  cbn [Result.majorReasons Result.minorReasons Result.level Result.reasons].
  set (dl := delta current b). set (pc := percentChange dl b).
  destruct (majorReasons dl pc th) as [|r0 mr].
  - rewrite level_nil.
    destruct (minorReasons [] dl pc th) as [|m0 mn];
      repeat split; intros; try congruence; try tauto;
      match goal with H : _ /\ _ |- _ => destruct H; congruence end.
  - rewrite minorReasons_cons, level_cons.
    repeat split; intros; try congruence; try tauto;
      match goal with H : _ /\ _ |- _ => destruct H; congruence end.
Qed.

(** *** C2 *)

(** C2. Every [detectChanges] returns and leaves the vector it classified as
    the baseline, whatever the detector held and whatever the level; and
    after any session on a detector that started without baseline, the
    baseline is absent or is the last vector that was classified. *)
Theorem baseline_slides :
  (forall current now d, exists r d',
      detectChanges current now d = inr (r, d')
      /\ Detector.baseline d' = Some current)
  /\ (forall cs th, exists d',
         run cs (Spec.fresh th) = inr (tt, d')
         /\ (Detector.baseline d' = None
             \/ Detector.baseline d' = lastClassified cs)).
Proof.
  split.
  - intros current now d.
    destruct (detectChanges_state current now d) as [r Hr].
    do 2 eexists. split; [exact Hr|reflexivity].
  - intros cs th.
    destruct (run_baseline cs (Spec.fresh th)) as (d' & Hrun & Hinv).
    exists d'. split; [exact Hrun|].
    destruct Hinv as [H|[H|[_ H]]]; auto.
Qed.

(** *** C3 *)

(** C3. Without a baseline, which is the state of the detector as built and
    the state after [resetBaseline], [detectChanges] returns the neutral
    result (level [none], nothing changed, no reasons, no capture, the file
    name [baseline_set.png]) and stores its input as the baseline. *)
Theorem first_observation (current : Metrics.t) (now : Z) :
  Detector.baseline initial = None
  /\ (forall d, exists rep d0,
         resetBaseline d = inr (rep, d0) /\ Detector.baseline d0 = None)
  /\ (forall th, exists r d',
         detectChanges current now (Detector.mk None th) = inr (r, d')
         /\ Result.level r = Level.none
         /\ Result.changed r = false
         /\ Result.majorReasons r = []
         /\ Result.minorReasons r = []
         /\ Result.reasons r = []
         /\ Result.shouldTakeScreenshot r = false
         /\ Result.shouldTakeSnapshot r = false
         /\ Result.suggestedFilename r = "baseline_set.png"%string
         /\ Detector.baseline d' = Some current).
Proof.
  split; [reflexivity|]. split.
  - intros d. do 2 eexists. split; [apply resetBaseline_state|reflexivity].
  - intros th. do 2 eexists.
    split; [apply detectChanges_first|]. repeat split.
Qed.

(** *** C6 *)

(** C6. [resetBaseline] returns the baseline it found and leaves none; a
    [detectChanges] right after it gives what the same call gives on a
    detector without baseline and with the same thresholds: the first
    observation of its input. *)
Theorem reset_then_first_observation (d : Detector.t) (v : Metrics.t) (now : Z) :
  (exists rep d0,
      resetBaseline d = inr (rep, d0)
      /\ ResetReply.previousBaseline rep = Detector.baseline d
      /\ Detector.baseline d0 = None
      /\ Detector.thresholds d0 = Detector.thresholds d)
  /\ (resetBaseline ;;; detectChanges v now) d
     = detectChanges v now (Spec.fresh (Detector.thresholds d))
  /\ detectChanges v now (Spec.fresh (Detector.thresholds d))
     = inr (Spec.firstObservation v,
            Detector.mk (Some v) (Detector.thresholds d)).
Proof.
  split; [|split].
  - do 2 eexists. split; [apply resetBaseline_state|]. repeat split.
  - unfold bind at 1. rewrite resetBaseline_state. reflexivity.
  - apply detectChanges_first.
Qed.

(** *** C7 *)




(** *** C5 *)

(** C5. [updateThresholds] returns, never failing, the thresholds it leaves
    in the detector; each of the eight fields is the value given for it when
    its tier and the field itself are in the argument, and the stored value
    otherwise; the baseline is not touched.  With only [major.elementDelta]
    given, as any number [x], negative ones included, the result is the
    stored configuration with [x] as [major.elementDelta]. *)
Theorem updateThresholds_merges (p : PartialThresholds.t) (d : Detector.t) :
  let old := Detector.thresholds d in
  let oj := Thresholds.major old in
  let on := Thresholds.minor old in
  let pj := PartialThresholds.major p in
  let pn := PartialThresholds.minor p in
  (exists th',
      updateThresholds p d
      = inr (UpdateReply.mk true th', Detector.mk (Detector.baseline d) th')
      /\ Major.elementDelta (Thresholds.major th')
         = Spec.merged (Major.elementDelta oj) pj PartialMajor.elementDelta
      /\ Major.dialogDelta (Thresholds.major th')
         = Spec.merged (Major.dialogDelta oj) pj PartialMajor.dialogDelta
      /\ Major.overlayDelta (Thresholds.major th')
         = Spec.merged (Major.overlayDelta oj) pj PartialMajor.overlayDelta
      /\ Major.formDelta (Thresholds.major th')
         = Spec.merged (Major.formDelta oj) pj PartialMajor.formDelta
      /\ Major.zIndexDelta (Thresholds.major th')
         = Spec.merged (Major.zIndexDelta oj) pj PartialMajor.zIndexDelta
      /\ Major.viewportDelta (Thresholds.major th')
         = Spec.merged (Major.viewportDelta oj) pj PartialMajor.viewportDelta
      /\ Minor.elementDelta (Thresholds.minor th')
         = Spec.merged (Minor.elementDelta on) pn PartialMinor.elementDelta
      /\ Minor.viewportDelta (Thresholds.minor th')
         = Spec.merged (Minor.viewportDelta on) pn PartialMinor.viewportDelta)
  /\ forall x : Q,
      let onlyElementDelta :=
        PartialThresholds.mk
          (Some (PartialMajor.mk (Some x) None None None None None)) None in
      let th' :=
        Thresholds.mk
          (Major.mk x (Major.dialogDelta oj) (Major.overlayDelta oj)
             (Major.formDelta oj) (Major.zIndexDelta oj) (Major.viewportDelta oj))
          on in
      updateThresholds onlyElementDelta d
      = inr (UpdateReply.mk true th', Detector.mk (Detector.baseline d) th').
Proof.
  intros old oj on pj pn. split.
  - eexists. split; [apply updateThresholds_state|].
    subst old oj on pj pn.
    destruct d as [b [mj mn]], p as [[j|] [n|]];
      cbn [Detector.thresholds Thresholds.major Thresholds.minor
           PartialThresholds.major PartialThresholds.minor];
      repeat split.
  - intros x onlyElementDelta th'.
    rewrite updateThresholds_state.
    subst old oj on th' onlyElementDelta.
    destruct d as [b [mj mn]]. reflexivity.
Qed.

(** *** C4 *)

Lemma geq_zero (q t : Q) : (0 < t)%Q -> (q == 0)%Q -> geq q t = false.
Proof.
  intros Ht Hq. unfold geq.
  destruct (Qle_bool t q) eqn:E; [|reflexivity].
  apply Qle_bool_iff in E. rewrite Hq in E.
  exfalso. exact (Qlt_not_le _ _ Ht E).
Qed.

Lemma percent_zero (q dv : Q) : (q == 0)%Q -> (q / dv * 100 == 0)%Q.
Proof.
  intros Hq. rewrite Hq. unfold Qdiv. rewrite !Qmult_0_l. reflexivity.
Qed.

Lemma abs_diag_Q (x : Q) : (Qabs (x - x) == 0)%Q.
Proof.
  assert (H : (x - x == 0)%Q) by ring.
  rewrite H. reflexivity.
Qed.

Lemma abs_diag_Z (x : Z) : (inject_Z (Z.abs (x - x)) == 0)%Q.
Proof. rewrite Z.sub_diag. reflexivity. Qed.

(** Against itself a vector gives no reason under positive thresholds. *)
Lemma reasons_same (v : Metrics.t) (th : Thresholds.t) :
  Spec.allPositive th ->
  let dl := delta v v in
  let pc := percentChange dl v in
  majorReasons dl pc th = [] /\ minorReasons [] dl pc th = [].
Proof.
  intros (He & _ & _ & Hf & Hz & Hv & Hme & Hmv) dl pc.
  unfold majorReasons, minorReasons. subst pc dl.
  cbn [delta percentChange Delta.urlChanged Delta.dialogs Delta.overlays
       Delta.forms Delta.elements Delta.zIndex Delta.fixedElements
       Delta.absoluteElements Delta.buttons Delta.inputs Delta.viewportHeight
       Delta.visibleElements PercentChange.viewport PercentChange.visible
       List.length Nat.eqb].
  rewrite String.eqb_refl.
  rewrite !Z.sub_diag.
  rewrite (geq_zero _ _ Hf), (geq_zero _ _ He), (geq_zero _ _ Hz),
    (geq_zero _ _ Hv), (geq_zero _ _ Hme), (geq_zero _ _ Hmv);
    try reflexivity;
    try (apply percent_zero; first [apply abs_diag_Q | reflexivity]).
  split; reflexivity.
Qed.

(** C4. With all configured thresholds strictly positive, a vector
    classified twice in a row gets level [none] the second time, with no
    reason at all, whatever the detector held before the first call. *)
Theorem same_vector_twice (v : Metrics.t) (now1 now2 : Z)
    (b : option Metrics.t) (th : Thresholds.t) :
  Spec.allPositive th ->
  exists r1 d1 r2 d2,
    detectChanges v now1 (Detector.mk b th) = inr (r1, d1)
    /\ detectChanges v now2 d1 = inr (r2, d2)
    /\ Result.level r2 = Level.none
    /\ Result.changed r2 = false
    /\ Result.majorReasons r2 = []
    /\ Result.minorReasons r2 = []
    /\ Result.suggestedFilename r2 = "no_change.png"%string.
Proof.
  intros Hpos.
  destruct (detectChanges_state v now1 (Detector.mk b th)) as [r1 Hr1].
  destruct (detectChanges_next v now2 th v) as (name & Hname & Hr2).
  destruct (reasons_same v th Hpos) as [Hmj Hmn].
  cbv zeta in Hmj, Hmn.
  rewrite Hmj in Hname, Hr2. rewrite Hmn in Hname, Hr2.
  cbn in Hname. injection Hname as <-.
  do 4 eexists. split; [exact Hr1|].
  cbn [Detector.thresholds]. split; [exact Hr2|].
  repeat split.
Qed.

(** *** Substrings of reasons *)

Section Substrings.

Local Open Scope string_scope.

Lemma allChars_app (p : ascii -> bool) (s t : string) :
  Spec.allChars p (s ++ t) = Spec.allChars p s && Spec.allChars p t.
Proof.
  induction s as [|c s IH]; cbn [append Spec.allChars].
  - reflexivity.
  - rewrite IH. apply andb_assoc.
Qed.

Lemma occurs_head (c : ascii) (n : string) : Spec.occurs c (String c n) = true.
Proof. cbn. rewrite Ascii.eqb_refl. reflexivity. Qed.

Lemma foreign_tail (a : ascii) (n s : string) :
  Spec.foreign (String a n) s = true -> Spec.foreign n s = true.
Proof.
  unfold Spec.foreign.
  induction s as [|x s IH]; cbn [Spec.allChars]; [reflexivity|].
  intros H. apply andb_true_iff in H. destruct H as [Hx Hs].
  apply andb_true_iff. split; [|exact (IH Hs)].
  cbn [Spec.occurs] in Hx. apply negb_true_iff in Hx.
  apply orb_false_iff in Hx. apply negb_true_iff. tauto.
Qed.

(** A needle does not start at a character it does not contain. *)
Lemma prefix_foreign_head (c x : ascii) (n s : string) :
  Spec.occurs x (String c n) = false -> prefix (String c n) (String x s) = false.
Proof.
  intros H. cbn [prefix].
  destruct (ascii_dec c x) as [->|_]; [|reflexivity].
  rewrite occurs_head in H. discriminate.
Qed.

Lemma includes_foreign (c : ascii) (n s : string) :
  Spec.foreign (String c n) s = true -> Js.includes (String c n) s = false.
Proof.
  unfold Spec.foreign.
  induction s as [|x s IH]; cbn [Spec.allChars Js.includes]; intros H.
  - reflexivity.
  - apply andb_true_iff in H. destruct H as [Hx Hs].
    apply negb_true_iff in Hx.
    rewrite (prefix_foreign_head _ _ _ _ Hx), (IH Hs). reflexivity.
Qed.

(** Characters foreign to the needle in front of a string hide nothing. *)
Lemma includes_foreign_prefix (c : ascii) (n pre rest : string) :
  Spec.foreign (String c n) pre = true ->
  Js.includes (String c n) (pre ++ rest) = Js.includes (String c n) rest.
Proof.
  unfold Spec.foreign.
  induction pre as [|x pre IH]; cbn [Spec.allChars append]; intros H.
  - reflexivity.
  - apply andb_true_iff in H. destruct H as [Hx Hs].
    apply negb_true_iff in Hx.
    cbn [Js.includes].
    rewrite (prefix_foreign_head _ _ _ _ Hx), (IH Hs). reflexivity.
Qed.

Lemma prefix_foreign_suffix (needle pre suf : string) :
  Spec.foreign needle suf = true ->
  prefix needle (pre ++ suf) = prefix needle pre.
Proof.
  revert pre. induction needle as [|a n IH]; intros pre H.
  - destruct pre, suf; reflexivity.
  - destruct pre as [|x pre]; cbn [append].
    + destruct suf as [|y suf]; [reflexivity|].
      unfold Spec.foreign in H. cbn [Spec.allChars] in H.
      apply andb_true_iff in H. destruct H as [Hy _].
      apply negb_true_iff in Hy.
      rewrite (prefix_foreign_head _ _ _ _ Hy). reflexivity.
    + cbn [prefix]. destruct (ascii_dec a x); [|reflexivity].
      apply IH. exact (foreign_tail _ _ _ H).
Qed.

(** Nor do they add anything behind it. *)
Lemma includes_foreign_suffix (c : ascii) (n pre suf : string) :
  Spec.foreign (String c n) suf = true ->
  Js.includes (String c n) (pre ++ suf) = Js.includes (String c n) pre.
Proof.
  intros H. induction pre as [|x pre IH].
  - cbn [append]. rewrite (includes_foreign _ _ _ H). reflexivity.
  - change (String x pre ++ suf) with (String x (pre ++ suf)).
    cbn [Js.includes].
    change (String x (pre ++ suf)) with (String x pre ++ suf).
    rewrite (prefix_foreign_suffix _ _ _ H), IH. reflexivity.
Qed.

(** Numbers are written with digits, a sign and a point. *)
Lemma string_of_uint_numeric (d : Decimal.uint) :
  Spec.allChars Spec.numericChar (NilEmpty.string_of_uint d) = true.
Proof. induction d; cbn [NilEmpty.string_of_uint Spec.allChars]; auto. Qed.

Lemma numToString_numeric (z : Z) :
  Spec.allChars Spec.numericChar (Js.numToString z) = true.
Proof.
  assert (H : forall u, Spec.allChars Spec.numericChar (NilZero.string_of_uint u)
                       = true).
  { intros u. unfold NilZero.string_of_uint.
    destruct u; [reflexivity | exact (string_of_uint_numeric _) ..]. }
  unfold Js.numToString, NilZero.string_of_int.
  destruct (Z.to_int z) as [u|u]; cbn [Spec.allChars]; rewrite H; reflexivity.
Qed.

Lemma toFixed1_numeric (q : Q) :
  Spec.allChars Spec.numericChar (Js.toFixed1 q) = true.
Proof.
  unfold Js.toFixed1.
  rewrite !allChars_app, !numToString_numeric.
  destruct (Qle_bool 0 q); reflexivity.
Qed.

Lemma numeric_foreign (needle s : string) :
  Spec.allChars (fun c => negb (Spec.numericChar c)) needle = true ->
  Spec.allChars Spec.numericChar s = true ->
  Spec.foreign needle s = true.
Proof.
  intros Hn. unfold Spec.foreign.
  induction s as [|x s IH]; cbn [Spec.allChars]; [reflexivity|].
  intros H. apply andb_true_iff in H. destruct H as [Hx Hs].
  rewrite (IH Hs), andb_true_r. apply negb_true_iff.
  clear IH Hs s. induction needle as [|a n IHn]; [reflexivity|].
  cbn [Spec.allChars] in Hn. apply andb_true_iff in Hn. destruct Hn as [Ha Hn].
  cbn [Spec.occurs]. rewrite (IHn Hn), orb_false_r.
  destruct (Ascii.eqb_spec x a) as [->|_]; [|reflexivity].
  rewrite Hx in Ha. discriminate.
Qed.

Variables (c : ascii) (n : string).
Hypothesis plain :
  Spec.allChars (fun x => negb (Spec.numericChar x)) (String c n) = true.

(** A number in front of a reason, or behind it, does not matter to a
    needle without digits, sign and point. *)
Lemma includes_num_l (z : Z) (suf : string) :
  Js.includes (String c n) (Js.numToString z ++ suf)
  = Js.includes (String c n) suf.
Proof.
  apply includes_foreign_prefix, numeric_foreign;
    [exact plain|apply numToString_numeric].
Qed.

Lemma includes_num_r (pre : string) (z : Z) :
  Js.includes (String c n) (pre ++ Js.numToString z)
  = Js.includes (String c n) pre.
Proof.
  apply includes_foreign_suffix, numeric_foreign;
    [exact plain|apply numToString_numeric].
Qed.

Lemma includes_percent (pre : string) (q : Q) :
  Spec.occurs "%"%char (String c n) = false ->
  Js.includes (String c n) (pre ++ Js.toFixed1 q ++ "%")
  = Js.includes (String c n) pre.
Proof.
  intros Hp. apply includes_foreign_suffix.
  unfold Spec.foreign. rewrite allChars_app.
  fold (Spec.foreign (String c n) (Js.toFixed1 q)).
  rewrite (numeric_foreign _ _ plain (toFixed1_numeric q)).
  cbn [Spec.allChars]. rewrite Hp. reflexivity.
Qed.

End Substrings.

(** *** Which reasons carry which signal *)

Ltac includes_calc :=
  unfold snapshotSignal;
  rewrite ?includes_num_l, ?includes_num_r, ?includes_percent by reflexivity;
  reflexivity.

Lemma some_pushIf (p : string -> bool) (c : bool) (r : string) (arr : list string) :
  Js.some p (Js.pushIf c r arr) = Js.some p arr || (c && p r).
Proof.
  unfold Js.some, Js.pushIf. destruct c; cbn [andb].
  - rewrite existsb_app. cbn [existsb]. rewrite orb_false_r. reflexivity.
  - rewrite orb_false_r. reflexivity.
Qed.

Section Signals.

Local Open Scope string_scope.

Variables (z : Z) (q : Q).

Lemma signal_url : snapshotSignal "URL changed" = true.
Proof. reflexivity. Qed.

Lemma signal_dialog :
  snapshotSignal (Js.numToString z ++ " dialog(s) appeared") = true.
Proof. includes_calc. Qed.

Lemma signal_overlay :
  snapshotSignal (Js.numToString z ++ " overlay(s) appeared") = true.
Proof. includes_calc. Qed.

Lemma signal_form :
  snapshotSignal ("Form count changed by " ++ Js.numToString z) = true.
Proof. includes_calc. Qed.

Lemma signal_elements :
  snapshotSignal (Js.numToString z ++ " elements changed") = false.
Proof. includes_calc. Qed.

Lemma signal_zindex :
  snapshotSignal ("Z-index increased by " ++ Js.numToString z) = false.
Proof. includes_calc. Qed.

Lemma signal_fixed :
  snapshotSignal (Js.numToString z ++ " fixed elements changed") = false.
Proof. includes_calc. Qed.

Lemma signal_absolute :
  snapshotSignal (Js.numToString z ++ " absolute elements changed") = false.
Proof. includes_calc. Qed.

Lemma signal_viewport :
  snapshotSignal ("Viewport height changed " ++ Js.toFixed1 q ++ "%") = false.
Proof. includes_calc. Qed.

End Signals.

(** A snapshot is recommended exactly when one of the first four major
    conditions holds. *)
Lemma snapshot_conditions (dl : Delta.t) (pc : PercentChange.t) (th : Thresholds.t) :
  Js.some snapshotSignal (majorReasons dl pc th)
  = Delta.urlChanged dl
    || positive (Delta.dialogs dl)
    || positive (Delta.overlays dl)
    || geq (inject_Z (Delta.forms dl)) (Major.formDelta (Thresholds.major th)).
Proof.
  unfold majorReasons. cbv zeta.
  rewrite !some_pushIf.
  rewrite signal_url, signal_dialog, signal_overlay, signal_form,
    signal_elements, signal_zindex, signal_fixed, signal_absolute,
    signal_viewport.
  rewrite !andb_true_r, !andb_false_r, !orb_false_r.
  reflexivity.
Qed.

(** Only the dialog reason contains [dialog], only the overlay reason
    [overlay]. *)
Lemma dialog_condition (dl : Delta.t) (pc : PercentChange.t) (th : Thresholds.t) :
  Js.some (Js.includes "dialog") (majorReasons dl pc th)
  = positive (Delta.dialogs dl).
Proof.
  unfold majorReasons. cbv zeta.
  rewrite !some_pushIf.
  rewrite ?includes_num_l, ?includes_num_r, ?includes_percent by reflexivity.
  cbn -[positive geq Js.numToString].
  rewrite !andb_true_r, !andb_false_r, !orb_false_r.
  reflexivity.
Qed.

Lemma overlay_condition (dl : Delta.t) (pc : PercentChange.t) (th : Thresholds.t) :
  Js.some (Js.includes "overlay") (majorReasons dl pc th)
  = positive (Delta.overlays dl).
Proof.
  unfold majorReasons. cbv zeta.
  rewrite !some_pushIf.
  rewrite ?includes_num_l, ?includes_num_r, ?includes_percent by reflexivity.
  cbn -[positive geq Js.numToString].
  rewrite !andb_true_r, !andb_false_r, !orb_false_r.
  reflexivity.
Qed.

(** *** The order of the major reasons *)

Lemma triggered_snoc (l : list (bool * string)) (c : bool) (r : string) :
  Spec.triggered (l ++ [(c, r)]) = Js.pushIf c r (Spec.triggered l).
Proof.
  unfold Spec.triggered, Js.pushIf.
  rewrite filter_app, map_app. cbn [filter fst].
  destruct c; cbn [map snd]; [reflexivity|apply app_nil_r].
Qed.

Lemma majorReasons_triggered (dl : Delta.t) (pc : PercentChange.t) (th : Thresholds.t) :
  majorReasons dl pc th = Spec.triggered (Spec.majorCandidates dl pc th).
Proof.
  unfold majorReasons, Spec.majorCandidates. cbv zeta.
  repeat match goal with
         | |- Js.pushIf ?c ?r _ = Spec.triggered ?l =>
             change l with (removelast l ++ [(c, r)]);
             rewrite triggered_snoc; apply f_equal; cbn [removelast]
         end.
  reflexivity.
Qed.

Lemma hd_triggered (l : list (bool * string)) :
  hd_error (Spec.triggered l) = option_map snd (find fst l).
Proof.
  unfold Spec.triggered.
  induction l as [|[c r] l IH]; [reflexivity|].
  cbn [filter find fst]. destruct c; [reflexivity|exact IH].
Qed.

Lemma In_triggered (r : string) (l : list (bool * string)) :
  In (true, r) l -> In r (Spec.triggered l).
Proof.
  intros H. unfold Spec.triggered.
  apply (in_map snd _ (true, r)). apply filter_In. split; [exact H|reflexivity].
Qed.

(** *** C8 *)

Lemma slug_length (s : string) :
  String.length (Js.replaceNonAlnum (Js.toLowerCase s)) = String.length s.
Proof.
  induction s as [|c s IH]; cbn [Js.toLowerCase Js.replaceNonAlnum String.length];
    congruence.
Qed.

Lemma slug_get (s : string) :
  forall i, String.get i (Js.replaceNonAlnum (Js.toLowerCase s))
            = option_map Spec.slugChar (String.get i s).
Proof.
  induction s as [|c s IH]; intros i;
    cbn [Js.toLowerCase Js.replaceNonAlnum String.get].
  - reflexivity.
  - destruct i as [|i]; [reflexivity|apply IH].
Qed.

(** C8, as the code has it.  On a first observation the level is [none]
    and the file name is [baseline_set.png].  On a call with a baseline the
    major reasons are those of the conditions that hold, in the order URL,
    dialog, overlay, form, element, z-index, fixed, absolute, viewport
    percent, the last one judged and printed from the percent figure that
    the result reports in its [metrics].  For level [major] the file name is
    [major_change_], the slug of the first of them, an underscore, the
    timestamp and [.png]; for [minor] it is [minor_change_], the timestamp
    and [.png]; for [none] it is [no_change.png].  The slug has the length of
    the reason: each character is lower-cased and, when it is then outside
    [a-z0-9], replaced by an underscore of its own. *)
Theorem suggestedFilename_shape (current : Metrics.t) (now : Z) (d : Detector.t) :
  match Detector.baseline d with
  | None =>
      exists r d',
        detectChanges current now d = inr (r, d')
        /\ Result.level r = Level.none
        /\ Result.suggestedFilename r = "baseline_set.png"%string
  | Some b =>
      exists r d' pc,
        detectChanges current now d = inr (r, d')
        /\ ResultMetrics.percentChange (Result.metrics r) = Some pc
        /\ Result.majorReasons r
           = Spec.triggered
               (Spec.majorCandidates (delta current b) pc (Detector.thresholds d))
        /\ match Result.level r with
           | Level.major =>
               exists r0,
                 option_map snd
                   (find fst (Spec.majorCandidates (delta current b) pc
                                (Detector.thresholds d)))
                 = Some r0
                 /\ hd_error (Result.majorReasons r) = Some r0
                 /\ Result.suggestedFilename r
                    = ("major_change_" ++ Js.replaceNonAlnum (Js.toLowerCase r0)
                         ++ "_" ++ Js.numToString now ++ ".png")%string
           | Level.minor =>
               Result.suggestedFilename r
               = ("minor_change_" ++ Js.numToString now ++ ".png")%string
           | Level.none =>
               Result.suggestedFilename r = "no_change.png"%string
           end
  end
  /\ forall s : string,
      String.length (Js.replaceNonAlnum (Js.toLowerCase s)) = String.length s
      /\ forall i, String.get i (Js.replaceNonAlnum (Js.toLowerCase s))
                   = option_map Spec.slugChar (String.get i s).
Proof.
  split.
  - destruct d as [[b|] th]; cbn [Detector.baseline Detector.thresholds].
    + destruct (detectChanges_next current now th b) as (name & Hname & Hrun).
      cbv zeta in Hname, Hrun.
      set (dl := delta current b) in *. set (pc := percentChange dl b) in *.
      do 2 eexists. exists pc. split; [exact Hrun|].
      cbn [Result.majorReasons Result.level Result.suggestedFilename
           Result.metrics ResultMetrics.percentChange].
      split; [reflexivity|].
      pose proof (majorReasons_triggered dl pc th) as Htr.
      pose proof (hd_triggered (Spec.majorCandidates dl pc th)) as Hhd.
      rewrite <- Htr in Hhd.
      split; [exact Htr|]. clear Hrun Htr.
      destruct (majorReasons dl pc th) as [|r0 mr].
      * rewrite level_nil in Hname |- *.
        destruct (minorReasons [] dl pc th); cbn in Hname;
          injection Hname as <-; reflexivity.
      * rewrite level_cons in Hname |- *. cbn in Hname. injection Hname as <-.
        exists r0. cbn [hd_error] in Hhd |- *. repeat split. symmetry. exact Hhd.
    + do 2 eexists. split; [apply detectChanges_first|]. split; reflexivity.
  - intros s. split; [apply slug_length|apply slug_get].
Qed.

(** C8, the counterexample.  From a baseline without dialog to a page with
    one, the first major reason is [1 dialog(s) appeared]; its slug keeps one
    underscore for the bracket and one for the blank, so the file name is not
    the one in which that run gives a single underscore. *)
Lemma slug_keeps_every_underscore :
  let base := Metrics.mk 100 "http://a/" 0 0 1 2 3 4 800 50 10 0 0 in
  let page := Metrics.mk 100 "http://a/" 1 0 1 2 3 4 800 50 10 0 0 in
  let now := 1700000000000 in
  exists r d',
    detectChanges page now (Detector.mk (Some base) defaultThresholds) = inr (r, d')
    /\ Result.level r = Level.major
    /\ hd_error (Result.majorReasons r) = Some "1 dialog(s) appeared"%string
    /\ Result.suggestedFilename r
       = "major_change_1_dialog_s__appeared_1700000000000.png"%string
    /\ Result.suggestedFilename r
       <> ("major_change_"
             ++ Spec.collapseNonAlnum (Js.toLowerCase "1 dialog(s) appeared")
             ++ "_" ++ Js.numToString now ++ ".png")%string.
Proof.
  do 2 eexists. split; [vm_compute; reflexivity|].
  repeat split. vm_compute. discriminate.
Qed.

(** *** C9 *)

(** C9. On a call with a baseline, [shouldTakeScreenshot] is true exactly
    when the level is not [none], and is the [changed] flag;
    [shouldTakeSnapshot] is true exactly when some major reason contains
    [dialog], [overlay], [URL changed] or [Form count changed], which is
    exactly when the URL changed, a dialog or an overlay appeared, or the
    form count moved by the major threshold; and from a baseline without
    dialog to a vector with one dialog the level is [major], the dialog
    reason is listed and a snapshot is recommended. *)
Theorem capture_recommendations (current b : Metrics.t) (now : Z) (th : Thresholds.t) :
  let dl := delta current b in
  exists r d',
    detectChanges current now (Detector.mk (Some b) th) = inr (r, d')
    /\ (Result.shouldTakeScreenshot r = true <-> Result.level r <> Level.none)
    /\ Result.shouldTakeScreenshot r = Result.changed r
    /\ (Result.shouldTakeSnapshot r = true
        <-> exists reason,
              In reason (Result.majorReasons r)
              /\ (Js.includes "dialog" reason = true
                  \/ Js.includes "overlay" reason = true
                  \/ Js.includes "URL changed" reason = true
                  \/ Js.includes "Form count changed" reason = true))
    /\ Result.shouldTakeSnapshot r
       = Delta.urlChanged dl
         || positive (Delta.dialogs dl)
         || positive (Delta.overlays dl)
         || geq (inject_Z (Delta.forms dl)) (Major.formDelta (Thresholds.major th))
    /\ (Metrics.dialogs b = 0 -> Metrics.dialogs current = 1 ->
        Result.level r = Level.major
        /\ In "1 dialog(s) appeared"%string (Result.majorReasons r)
        /\ Result.shouldTakeSnapshot r = true).
Proof.
  intros dl.
  destruct (detectChanges_next current now th b) as (name & _ & Hrun).
  cbv zeta in Hrun. fold dl in Hrun.
  do 2 eexists. split; [exact Hrun|].
  cbn [Result.shouldTakeScreenshot Result.level Result.changed
       Result.shouldTakeSnapshot Result.majorReasons].
  set (pc := percentChange dl b). set (mr := majorReasons dl pc th).
  split; [|split; [reflexivity|split; [|split]]].
  - destruct (level mr (minorReasons mr dl pc th)); cbn;
      split; intros; congruence.
  - unfold Js.some. rewrite existsb_exists. unfold snapshotSignal.
    split; intros (reason & Hin & H); exists reason; (split; [exact Hin|]).
    + rewrite !orb_true_iff in H. tauto.
    + rewrite !orb_true_iff. tauto.
  - apply snapshot_conditions.
  - intros Hb Hc.
    assert (Hd : Delta.dialogs dl = 1)
      by (subst dl; cbn [delta Delta.dialogs]; rewrite Hb, Hc; reflexivity).
    assert (Hin : In "1 dialog(s) appeared"%string mr).
    { subst mr. rewrite majorReasons_triggered. apply In_triggered.
      unfold Spec.majorCandidates. rewrite Hd. right. left. reflexivity. }
    split; [|split].
    + destruct mr; [contradiction|apply level_cons].
    + exact Hin.
    + subst mr. rewrite snapshot_conditions, Hd.
      cbn [positive Z.ltb Z.compare]. rewrite orb_true_r. reflexivity.
Qed.

(** *** C10 *)

(** C10. Two detectors that differ only in [major.dialogDelta] and
    [major.overlayDelta] give the same result on every vector and still
    differ only there afterwards; with a baseline, a major reason mentions a
    dialog exactly when the dialog count grew, and an overlay exactly when
    the overlay count grew, whatever the two thresholds are. *)
Theorem dialog_overlay_thresholds_unused (current : Metrics.t) (now : Z)
    (b : option Metrics.t) (e f z v : Q) (mn : Minor.t) (dd od dd' od' : Q) :
  exists r,
    detectChanges current now (Spec.detectorWith b e f z v mn dd od)
    = inr (r, Spec.detectorWith (Some current) e f z v mn dd od)
    /\ detectChanges current now (Spec.detectorWith b e f z v mn dd' od')
       = inr (r, Spec.detectorWith (Some current) e f z v mn dd' od')
    /\ match b with
       | Some base =>
           Js.some (Js.includes "dialog") (Result.majorReasons r)
           = positive (Metrics.dialogs current - Metrics.dialogs base)
           /\ Js.some (Js.includes "overlay") (Result.majorReasons r)
              = positive (Metrics.overlays current - Metrics.overlays base)
       | None => Result.majorReasons r = []
       end.
Proof.
  unfold Spec.detectorWith.
  destruct b as [base|].
  - set (th1 := Thresholds.mk (Major.mk e dd od f z v) mn).
    set (th2 := Thresholds.mk (Major.mk e dd' od' f z v) mn).
    destruct (detectChanges_next current now th1 base) as (n1 & Hn1 & Hrun1).
    destruct (detectChanges_next current now th2 base) as (n2 & Hn2 & Hrun2).
    cbv zeta in Hn1, Hn2, Hrun1, Hrun2.
    assert (Hn : n2 = n1).
    { assert (H : @inr Js.Error string n2 = inr n1)
        by (rewrite <- Hn1, <- Hn2; reflexivity).
      injection H as ->. reflexivity. }
    subst n2.
    eexists. split; [exact Hrun1|]. split; [exact Hrun2|].
    cbn [Result.majorReasons].
    rewrite dialog_condition, overlay_condition. split; reflexivity.
  - eexists. split; [apply detectChanges_first|].
    split; [apply detectChanges_first|reflexivity].
Qed.

(** *** Runs of the scenarios *)

(** C4 at a page classified twice by the detector as built. *)
Lemma same_vector_twice_default :
  let v := Metrics.mk 100 "http://a/" 0 0 1 2 3 4 800 50 10 0 0 in
  Spec.allPositive defaultThresholds
  /\ exists r1 d1 r2 d2,
      detectChanges v 1 (Detector.mk None defaultThresholds) = inr (r1, d1)
      /\ detectChanges v 2 d1 = inr (r2, d2)
      /\ Result.level r2 = Level.none
      /\ Result.changed r2 = false
      /\ Result.majorReasons r2 = []
      /\ Result.minorReasons r2 = []
      /\ Result.suggestedFilename r2 = "no_change.png"%string.
Proof.
  assert (Hpos : Spec.allPositive defaultThresholds)
    by (unfold Spec.allPositive; cbn; repeat split).
  split; [exact Hpos|].
  exact (same_vector_twice _ 1 2 None defaultThresholds Hpos).
Defined.

(** The element scenarios: 100 to 125 elements is a minor change with a
    screenshot and no snapshot, 100 to 101 is none. *)
Example elements_scenarios :
  let base := Metrics.mk 100 "http://a/" 0 0 1 2 3 4 800 50 10 0 0 in
  let more := Metrics.mk 125 "http://a/" 0 0 1 2 3 4 800 50 10 0 0 in
  let one := Metrics.mk 101 "http://a/" 0 0 1 2 3 4 800 50 10 0 0 in
  let d := Detector.mk (Some base) defaultThresholds in
  (exists r d', detectChanges more 7 d = inr (r, d')
                /\ Result.level r = Level.minor
                /\ Result.shouldTakeScreenshot r = true
                /\ Result.shouldTakeSnapshot r = false
                /\ Result.suggestedFilename r = "minor_change_7.png"%string)
  /\ (exists r d', detectChanges one 7 d = inr (r, d')
                   /\ Result.level r = Level.none).
Proof.
  split; do 2 eexists; (split; [vm_compute; reflexivity|repeat split]).
Qed.

(** ** Further properties of the detector *)

(** *** The level as a function of the conditions *)

Lemma level_some (mr mn : list string) :
  level mr mn
  = if Js.some (fun _ => true) mr then Level.major
    else if Js.some (fun _ => true) mn then Level.minor
    else Level.none.
Proof. destruct mr, mn; reflexivity. Qed.

Lemma some_true_nil (l : list string) :
  Js.some (fun _ => true) l = false -> l = [].
Proof. destruct l; [reflexivity|discriminate]. Qed.

Lemma major_nonempty (dl : Delta.t) (pc : PercentChange.t) (th : Thresholds.t) :
  Js.some (fun _ => true) (majorReasons dl pc th) = Laws.majorCondition dl pc th.
Proof.
  unfold majorReasons, Laws.majorCondition. cbv zeta.
  rewrite !some_pushIf, !andb_true_r. reflexivity.
Qed.

Lemma minor_nonempty (dl : Delta.t) (pc : PercentChange.t) (th : Thresholds.t) :
  Js.some (fun _ => true) (minorReasons [] dl pc th) = Laws.minorCondition dl pc th.
Proof.
  unfold minorReasons, Laws.minorCondition. cbv zeta. cbn [List.length Nat.eqb].
  rewrite !some_pushIf, !andb_true_r. reflexivity.
Qed.

Lemma level_conditions (dl : Delta.t) (pc : PercentChange.t) (th : Thresholds.t) :
  let mr := majorReasons dl pc th in
  level mr (minorReasons mr dl pc th)
  = if Laws.majorCondition dl pc th then Level.major
    else if Laws.minorCondition dl pc th then Level.minor
    else Level.none.
Proof.
  intros mr. rewrite level_some. subst mr. rewrite major_nonempty.
  destruct (Laws.majorCondition dl pc th) eqn:E; [reflexivity|].
  rewrite <- major_nonempty in E. apply some_true_nil in E. rewrite E.
  rewrite minor_nonempty. reflexivity.
Qed.

(** The level of a call with a baseline, read off the detector's result. *)
Lemma detectChanges_level (current b : Metrics.t) (now : Z) (th : Thresholds.t) :
  let dl := delta current b in
  let pc := percentChange dl b in
  exists r d',
    detectChanges current now (Detector.mk (Some b) th) = inr (r, d')
    /\ Result.level r = (if Laws.majorCondition dl pc th then Level.major
                         else if Laws.minorCondition dl pc th then Level.minor
                         else Level.none)
    /\ Result.changed r = negb (Level.eqb (Result.level r) Level.none)
    /\ Result.shouldTakeScreenshot r = Result.changed r
    /\ Result.majorReasons r = majorReasons dl pc th.
Proof.
  intros dl pc.
  destruct (detectChanges_next current now th b) as (name & _ & Hrun).
  do 2 eexists. split; [exact Hrun|].
  cbn [Result.level Result.changed Result.shouldTakeScreenshot Result.majorReasons].
  split; [apply level_conditions|]. repeat split.
Qed.

Lemma positive_abs (a b : Z) : a <> b -> positive (Z.abs (a - b)) = true.
Proof. intros H. unfold positive. apply Z.ltb_lt. lia. Qed.

Lemma geq_nonpositive (x : Z) (t : Q) :
  (t <= 0)%Q -> geq (inject_Z (Z.abs x)) t = true.
Proof.
  intros Ht. unfold geq. apply Qle_bool_iff.
  apply Qle_trans with (1 := Ht).
  change 0%Q with (inject_Z 0). rewrite <- Zle_Qle. apply Z.abs_nonneg.
Qed.

Lemma geq_lower (x t t' : Q) : (t <= t')%Q -> geq x t' = true -> geq x t = true.
Proof.
  unfold geq. intros Ht H. apply Qle_bool_iff in H. apply Qle_bool_iff.
  exact (Qle_trans _ _ _ Ht H).
Qed.

(** X1. The level of a call with a baseline is decided by thirteen
    conditions: [major] when one of the nine major conditions holds,
    otherwise [minor] when one of the four minor conditions holds, otherwise
    [none].  The two conditions on a percent are on the figures that the
    result reports in its [metrics]. *)
Theorem level_decision (current b : Metrics.t) (now : Z) (th : Thresholds.t) :
  let dl := delta current b in
  let mj := Thresholds.major th in
  let mn := Thresholds.minor th in
  exists r d' pc,
    detectChanges current now (Detector.mk (Some b) th) = inr (r, d')
    /\ ResultMetrics.percentChange (Result.metrics r) = Some pc
    /\ Result.level r
       = if Delta.urlChanged dl
            || positive (Delta.dialogs dl)
            || positive (Delta.overlays dl)
            || geq (inject_Z (Delta.forms dl)) (Major.formDelta mj)
            || geq (inject_Z (Delta.elements dl)) (Major.elementDelta mj)
            || geq (inject_Z (Delta.zIndex dl)) (Major.zIndexDelta mj)
            || positive (Delta.fixedElements dl)
            || positive (Delta.absoluteElements dl)
            || geq (PercentChange.viewport pc) (Major.viewportDelta mj)
         then Level.major
         else if geq (inject_Z (Delta.elements dl)) (Minor.elementDelta mn)
                 || geq (PercentChange.visible pc) (Minor.viewportDelta mn)
                 || positive (Delta.buttons dl)
                 || positive (Delta.inputs dl)
         then Level.minor
         else Level.none.
Proof.
  intros dl mj mn.
  destruct (detectChanges_next current now th b) as (name & _ & Hrun).
  cbv zeta in Hrun.
  do 2 eexists. exists (percentChange dl b). split; [exact Hrun|].
  cbn [Result.level Result.metrics ResultMetrics.percentChange].
  split; [reflexivity|]. apply level_conditions.
Qed.

(** X2. A snapshot is only ever recommended together with level [major] and
    a screenshot: whatever the detector holds, a result with
    [shouldTakeSnapshot] has level [major], [changed] and
    [shouldTakeScreenshot]. *)
Theorem snapshot_needs_major (current : Metrics.t) (now : Z) (d : Detector.t) :
  exists r d',
    detectChanges current now d = inr (r, d')
    /\ (Result.shouldTakeSnapshot r = true ->
        Result.level r = Level.major
        /\ Result.changed r = true
        /\ Result.shouldTakeScreenshot r = true).
Proof.
  destruct d as [[b|] th].
  - destruct (detectChanges_next current now th b) as (name & _ & Hrun).
    do 2 eexists. split; [exact Hrun|].
    cbn [Result.shouldTakeSnapshot Result.level Result.changed
         Result.shouldTakeScreenshot].
    destruct (majorReasons (delta current b) (percentChange (delta current b) b) th)
      as [|r0 mr]; [discriminate|].
    rewrite level_cons. intros _. repeat split.
  - do 2 eexists. split; [apply detectChanges_first|]. discriminate.
Qed.

(** X3. A change of URL is a major change whatever the thresholds and the
    other figures: [URL changed] is the first reason, a snapshot is
    recommended and the file name is [major_change_url_changed_], the
    timestamp and [.png]. *)
Theorem url_change_is_major (current b : Metrics.t) (now : Z) (th : Thresholds.t) :
  Metrics.url current <> Metrics.url b ->
  exists r d',
    detectChanges current now (Detector.mk (Some b) th) = inr (r, d')
    /\ Result.level r = Level.major
    /\ hd_error (Result.majorReasons r) = Some "URL changed"%string
    /\ Result.shouldTakeSnapshot r = true
    /\ Result.suggestedFilename r
       = ("major_change_url_changed_" ++ Js.numToString now ++ ".png")%string.
Proof.
  intros Hurl.
  destruct (detectChanges_next current now th b) as (name & Hname & Hrun).
  cbv zeta in Hname, Hrun.
  set (dl := delta current b) in *. set (pc := percentChange dl b) in *.
  assert (Hu : Delta.urlChanged dl = true).
  { subst dl. cbn [delta Delta.urlChanged]. apply negb_true_iff.
    apply String.eqb_neq. exact Hurl. }
  assert (Hhd : hd_error (majorReasons dl pc th) = Some "URL changed"%string).
  { rewrite majorReasons_triggered, hd_triggered.
    unfold Spec.majorCandidates. cbn [find fst]. rewrite Hu. reflexivity. }
  assert (Hsn : Js.some snapshotSignal (majorReasons dl pc th) = true).
  { rewrite snapshot_conditions, Hu. reflexivity. }
  do 2 eexists. split; [exact Hrun|].
  cbn [Result.level Result.majorReasons Result.shouldTakeSnapshot
       Result.suggestedFilename].
  destruct (majorReasons dl pc th) as [|r0 mr]; [discriminate|].
  cbn [hd_error] in Hhd. injection Hhd as ->.
  rewrite level_cons in Hname |- *. cbn in Hname. injection Hname as <-.
  split; [reflexivity|]. split; [reflexivity|]. split; [exact Hsn|reflexivity].
Qed.

Lemma url_change_is_major_run :
  let b := Metrics.mk 100 "http://a/" 0 0 1 2 3 4 800 50 10 0 0 in
  let current := Metrics.mk 100 "http://a/next" 0 0 1 2 3 4 800 50 10 0 0 in
  Metrics.url current <> Metrics.url b
  /\ exists r d',
      detectChanges current 42 (Detector.mk (Some b) defaultThresholds) = inr (r, d')
      /\ Result.level r = Level.major
      /\ hd_error (Result.majorReasons r) = Some "URL changed"%string
      /\ Result.shouldTakeSnapshot r = true
      /\ Result.suggestedFilename r
         = ("major_change_url_changed_" ++ Js.numToString 42 ++ ".png")%string.
Proof.
  assert (H : "http://a/next"%string <> "http://a/"%string) by discriminate.
  split; [exact H|].
  exact (url_change_is_major
           (Metrics.mk 100 "http://a/next" 0 0 1 2 3 4 800 50 10 0 0)
           (Metrics.mk 100 "http://a/" 0 0 1 2 3 4 800 50 10 0 0)
           42 defaultThresholds H).
Defined.

Lemma majorCondition_false_nil (dl : Delta.t) (pc : PercentChange.t)
    (th : Thresholds.t) :
  Laws.majorCondition dl pc th = false -> majorReasons dl pc th = [].
Proof. intros H. apply some_true_nil. rewrite major_nonempty. exact H. Qed.

Lemma minorCondition_false_nil (dl : Delta.t) (pc : PercentChange.t)
    (th : Thresholds.t) :
  Laws.minorCondition dl pc th = false -> minorReasons [] dl pc th = [].
Proof. intros H. apply some_true_nil. rewrite minor_nonempty. exact H. Qed.

Lemma geq_below (q t : Q) : (q <= 0)%Q -> (0 < t)%Q -> geq q t = false.
Proof.
  intros Hq Ht. unfold geq.
  destruct (Qle_bool t q) eqn:E; [|reflexivity].
  apply Qle_bool_iff in E. exfalso.
  apply (Qlt_not_le _ _ Ht). exact (Qle_trans _ _ _ E Hq).
Qed.

Lemma positive_nonpos (a : Z) : a <= 0 -> positive a = false.
Proof. intros H. unfold positive. apply Z.ltb_ge. exact H. Qed.

(** X4. A change in the count of fixed or of absolutely positioned elements
    is a major change under every threshold configuration: these two
    triggers cannot be tuned. *)
Theorem position_change_is_major (current b : Metrics.t) (now : Z)
    (th : Thresholds.t) :
  Metrics.fixedElements current <> Metrics.fixedElements b
  \/ Metrics.absoluteElements current <> Metrics.absoluteElements b ->
  exists r d',
    detectChanges current now (Detector.mk (Some b) th) = inr (r, d')
    /\ Result.level r = Level.major
    /\ Result.changed r = true.
Proof.
  intros H.
  destruct (detectChanges_level current b now th)
    as (r & d' & Hrun & Hlv & Hch & _).
  exists r, d'. split; [exact Hrun|].
  assert (Hm : Laws.majorCondition (delta current b)
                 (percentChange (delta current b) b) th = true).
  { unfold Laws.majorCondition. cbn [delta Delta.fixedElements Delta.absoluteElements].
    destruct H as [H|H]; rewrite (positive_abs _ _ H), ?orb_true_r; reflexivity. }
  cbv zeta in Hlv. rewrite Hm in Hlv. rewrite Hch, Hlv. split; reflexivity.
Qed.

Lemma position_change_is_major_run :
  let b := Metrics.mk 100 "http://a/" 0 0 1 2 3 4 800 50 10 0 0 in
  let current := Metrics.mk 100 "http://a/" 0 0 1 2 3 4 800 50 10 1 0 in
  let th := Thresholds.mk (Major.mk 1000 1000 1000 1000 1000 1000)
                          (Minor.mk 1000 1000) in
  (Metrics.fixedElements current <> Metrics.fixedElements b
   \/ Metrics.absoluteElements current <> Metrics.absoluteElements b)
  /\ exists r d',
      detectChanges current 7 (Detector.mk (Some b) th) = inr (r, d')
      /\ Result.level r = Level.major
      /\ Result.changed r = true.
Proof.
  assert (H : 1 <> 0 \/ 0 <> 0) by (left; discriminate).
  split; [exact H|].
  exact (position_change_is_major
           (Metrics.mk 100 "http://a/" 0 0 1 2 3 4 800 50 10 1 0)
           (Metrics.mk 100 "http://a/" 0 0 1 2 3 4 800 50 10 0 0)
           7 _ H).
Defined.

(** X5. A change in the count of buttons or of inputs is always reported,
    under every threshold configuration: the level is [minor] or [major],
    never [none], and a screenshot is recommended. *)
Theorem control_change_is_reported (current b : Metrics.t) (now : Z)
    (th : Thresholds.t) :
  Metrics.buttons current <> Metrics.buttons b
  \/ Metrics.inputs current <> Metrics.inputs b ->
  exists r d',
    detectChanges current now (Detector.mk (Some b) th) = inr (r, d')
    /\ Result.level r <> Level.none
    /\ Result.changed r = true
    /\ Result.shouldTakeScreenshot r = true.
Proof.
  intros H.
  destruct (detectChanges_level current b now th)
    as (r & d' & Hrun & Hlv & Hch & Hsc & _).
  exists r, d'. split; [exact Hrun|].
  assert (Hm : Laws.minorCondition (delta current b)
                 (percentChange (delta current b) b) th = true).
  { unfold Laws.minorCondition. cbn [delta Delta.buttons Delta.inputs].
    destruct H as [H|H]; rewrite (positive_abs _ _ H), ?orb_true_r; reflexivity. }
  cbv zeta in Hlv. rewrite Hm in Hlv. rewrite Hsc, Hch, Hlv.
  destruct (Laws.majorCondition _ _ _); repeat split; discriminate.
Qed.

Lemma control_change_is_reported_run :
  let b := Metrics.mk 100 "http://a/" 0 0 1 2 3 4 800 50 10 0 0 in
  let current := Metrics.mk 100 "http://a/" 0 0 1 2 4 4 800 50 10 0 0 in
  let th := Thresholds.mk (Major.mk 1000 1000 1000 1000 1000 1000)
                          (Minor.mk 1000 1000) in
  (Metrics.buttons current <> Metrics.buttons b
   \/ Metrics.inputs current <> Metrics.inputs b)
  /\ exists r d',
      detectChanges current 7 (Detector.mk (Some b) th) = inr (r, d')
      /\ Result.level r <> Level.none
      /\ Result.changed r = true
      /\ Result.shouldTakeScreenshot r = true.
Proof.
  assert (H : 4 <> 3 \/ 2 <> 2) by (left; discriminate).
  split; [exact H|].
  exact (control_change_is_reported
           (Metrics.mk 100 "http://a/" 0 0 1 2 4 4 800 50 10 0 0)
           (Metrics.mk 100 "http://a/" 0 0 1 2 3 4 800 50 10 0 0)
           7 _ H).
Defined.

(** X6. Disappearance is not flagged.  When the new vector differs from the
    baseline only in that dialogs, overlays and the maximal z-index did not
    grow, and in its count of links, then under strictly positive thresholds
    the level is [none] and there is no reason. *)
Theorem disappearance_is_ignored
    (e : Z) (u : string) (d o f i bt l : Z) (vh : Q) (ve z fx ab : Z)
    (d' o' l' z' : Z) (now : Z) (th : Thresholds.t) :
  Spec.allPositive th -> d' <= d -> o' <= o -> z' <= z ->
  exists r dd,
    detectChanges (Metrics.mk e u d' o' f i bt l' vh ve z' fx ab) now
      (Detector.mk (Some (Metrics.mk e u d o f i bt l vh ve z fx ab)) th)
    = inr (r, dd)
    /\ Result.level r = Level.none
    /\ Result.reasons r = []
    /\ Result.changed r = false.
Proof.
  intros (He & _ & _ & Hf & Hz & Hv & Hme & Hmv) Hd Ho Hzz.
  set (current := Metrics.mk e u d' o' f i bt l' vh ve z' fx ab).
  set (b := Metrics.mk e u d o f i bt l vh ve z fx ab).
  destruct (detectChanges_next current now th b) as (name & _ & Hrun).
  cbv zeta in Hrun.
  set (dl := delta current b) in *. set (pc := percentChange dl b) in *.
  assert (Hmj : Laws.majorCondition dl pc th = false).
  { unfold Laws.majorCondition. subst pc dl current b.
    cbn [delta percentChange Delta.urlChanged Delta.dialogs Delta.overlays
         Delta.forms Delta.elements Delta.zIndex Delta.fixedElements
         Delta.absoluteElements Delta.viewportHeight PercentChange.viewport
         Metrics.elements Metrics.url Metrics.dialogs Metrics.overlays
         Metrics.forms Metrics.maxZIndex Metrics.fixedElements
         Metrics.absoluteElements Metrics.viewportHeight].
    rewrite String.eqb_refl, !Z.sub_diag.
    rewrite (positive_nonpos (d' - d)), (positive_nonpos (o' - o)) by lia.
    rewrite (geq_zero _ _ Hf), (geq_zero _ _ He), (geq_zero _ _ Hv);
      try reflexivity;
      try (apply percent_zero; apply abs_diag_Q).
    assert (Hq : (inject_Z (z' - z) <= 0)%Q)
      by (change 0%Q with (inject_Z 0); rewrite <- Zle_Qle; lia).
    rewrite (geq_below _ _ Hq Hz). reflexivity. }
  assert (Hmn : Laws.minorCondition dl pc th = false).
  { unfold Laws.minorCondition. subst pc dl current b.
    cbn [delta percentChange Delta.elements Delta.buttons Delta.inputs
         Delta.visibleElements PercentChange.visible
         Metrics.elements Metrics.buttons Metrics.inputs Metrics.visibleElements].
    rewrite !Z.sub_diag.
    rewrite (geq_zero _ _ Hme), (geq_zero _ _ Hmv); reflexivity. }
  rewrite (majorCondition_false_nil _ _ _ Hmj) in Hrun.
  rewrite (minorCondition_false_nil _ _ _ Hmn) in Hrun.
  do 2 eexists. split; [exact Hrun|]. repeat split.
Qed.

Lemma disappearance_is_ignored_run :
  Spec.allPositive defaultThresholds /\ 0 <= 2 /\ 1 <= 3 /\ 10 <= 900
  /\ exists r dd,
      detectChanges (Metrics.mk 100 "http://a/" 0 1 1 2 3 9 800 50 10 0 0) 7
        (Detector.mk (Some (Metrics.mk 100 "http://a/" 2 3 1 2 3 4 800 50 900 0 0))
           defaultThresholds)
      = inr (r, dd)
      /\ Result.level r = Level.none
      /\ Result.reasons r = []
      /\ Result.changed r = false.
Proof.
  assert (Hpos : Spec.allPositive defaultThresholds)
    by (unfold Spec.allPositive; cbn; repeat split).
  assert (H1 : 0 <= 2) by lia.
  assert (H2 : 1 <= 3) by lia.
  assert (H3 : 10 <= 900) by lia.
  split; [exact Hpos|]. split; [exact H1|]. split; [exact H2|].
  split; [exact H3|].
  exact (disappearance_is_ignored 100 "http://a/" 2 3 1 2 3 4 800 50 900 0 0
           0 1 9 10 7 defaultThresholds Hpos H1 H2 H3).
Defined.

(** X7. The count of links is collected and its delta computed, but it
    decides nothing: with other counts of links in the new vector and in the
    baseline, level, reasons, recommendations and file name are the same. *)
Theorem links_are_ignored (current b : Metrics.t) (l k : Z) (now : Z)
    (th : Thresholds.t) :
  exists r r' d d',
    detectChanges current now (Detector.mk (Some b) th) = inr (r, d)
    /\ detectChanges (Laws.withLinks l current) now
         (Detector.mk (Some (Laws.withLinks k b)) th) = inr (r', d')
    /\ Result.level r' = Result.level r
    /\ Result.changed r' = Result.changed r
    /\ Result.majorReasons r' = Result.majorReasons r
    /\ Result.minorReasons r' = Result.minorReasons r
    /\ Result.reasons r' = Result.reasons r
    /\ Result.shouldTakeScreenshot r' = Result.shouldTakeScreenshot r
    /\ Result.shouldTakeSnapshot r' = Result.shouldTakeSnapshot r
    /\ Result.suggestedFilename r' = Result.suggestedFilename r.
Proof.
  destruct (detectChanges_next current now th b) as (n1 & Hn1 & Hrun1).
  destruct (detectChanges_next (Laws.withLinks l current) now th (Laws.withLinks k b))
    as (n2 & Hn2 & Hrun2).
  cbv zeta in Hn1, Hn2, Hrun1, Hrun2.
  assert (Hn : n2 = n1).
  { assert (H : @inr Js.Error string n2 = inr n1)
      by (rewrite <- Hn1, <- Hn2; reflexivity).
    injection H as ->. reflexivity. }
  subst n2.
  do 4 eexists. split; [exact Hrun1|]. split; [exact Hrun2|].
  repeat split.
Qed.

(** X8. A threshold [major.elementDelta] or [major.formDelta] that is zero
    or negative makes every call with a baseline a major change, also when
    nothing changed at all. *)
Theorem nonpositive_threshold_always_major (current b : Metrics.t) (now : Z)
    (th : Thresholds.t) :
  (Major.elementDelta (Thresholds.major th) <= 0
   \/ Major.formDelta (Thresholds.major th) <= 0)%Q ->
  exists r d',
    detectChanges current now (Detector.mk (Some b) th) = inr (r, d')
    /\ Result.level r = Level.major
    /\ Result.changed r = true
    /\ Result.shouldTakeScreenshot r = true.
Proof.
  intros H.
  destruct (detectChanges_level current b now th)
    as (r & d' & Hrun & Hlv & Hch & Hsc & _).
  exists r, d'. split; [exact Hrun|].
  assert (Hm : Laws.majorCondition (delta current b)
                 (percentChange (delta current b) b) th = true).
  { unfold Laws.majorCondition. cbn [delta Delta.elements Delta.forms].
    destruct H as [H|H]; rewrite (geq_nonpositive _ _ H), ?orb_true_r; reflexivity. }
  cbv zeta in Hlv. rewrite Hm in Hlv. rewrite Hsc, Hch, Hlv. repeat split.
Qed.

Lemma nonpositive_threshold_always_major_run :
  let v := Metrics.mk 100 "http://a/" 0 0 1 2 3 4 800 50 10 0 0 in
  let th := Thresholds.mk (Major.mk 0 1 1 1 500 30) (Minor.mk 20 5) in
  (Major.elementDelta (Thresholds.major th) <= 0
   \/ Major.formDelta (Thresholds.major th) <= 0)%Q
  /\ exists r d',
      detectChanges v 7 (Detector.mk (Some v) th) = inr (r, d')
      /\ Result.level r = Level.major
      /\ Result.changed r = true
      /\ Result.shouldTakeScreenshot r = true.
Proof.
  assert (H : (0 <= 0 \/ 1 <= 0)%Q) by (left; apply Qle_refl).
  split; [exact H|].
  exact (nonpositive_threshold_always_major
           (Metrics.mk 100 "http://a/" 0 0 1 2 3 4 800 50 10 0 0)
           (Metrics.mk 100 "http://a/" 0 0 1 2 3 4 800 50 10 0 0)
           7 (Thresholds.mk (Major.mk 0 1 1 1 500 30) (Minor.mk 20 5)) H).
Defined.

(** X9. Raising major thresholds never creates a major change: when none of
    the major thresholds that are read is lowered, a call that is [major]
    under the raised configuration is [major] under the original one. *)
Theorem raising_thresholds_keeps_major (current b : Metrics.t) (now : Z)
    (th th' : Thresholds.t) :
  Laws.majorBelow th th' ->
  exists r r' d d',
    detectChanges current now (Detector.mk (Some b) th) = inr (r, d)
    /\ detectChanges current now (Detector.mk (Some b) th') = inr (r', d')
    /\ (Result.level r' = Level.major -> Result.level r = Level.major).
Proof.
  intros (Hf & He & Hz & Hv).
  destruct (detectChanges_level current b now th) as (r & d & Hrun & Hlv & _).
  destruct (detectChanges_level current b now th') as (r' & d' & Hrun' & Hlv' & _).
  exists r, r', d, d'. split; [exact Hrun|]. split; [exact Hrun'|].
  cbv zeta in Hlv, Hlv'. rewrite Hlv, Hlv'.
  set (dl := delta current b). set (pc := percentChange dl b).
  assert (Hm : Laws.majorCondition dl pc th' = true ->
               Laws.majorCondition dl pc th = true).
  { pose proof (geq_lower (inject_Z (Delta.forms dl)) _ _ Hf) as Af.
    pose proof (geq_lower (inject_Z (Delta.elements dl)) _ _ He) as Ae.
    pose proof (geq_lower (inject_Z (Delta.zIndex dl)) _ _ Hz) as Az.
    pose proof (geq_lower (PercentChange.viewport pc) _ _ Hv) as Av.
    unfold Laws.majorCondition. cbv zeta. rewrite !orb_true_iff. tauto. }
  destruct (Laws.majorCondition dl pc th') eqn:E'.
  - rewrite (Hm eq_refl). reflexivity.
  - destruct (Laws.minorCondition dl pc th'); discriminate.
Qed.

Lemma raising_thresholds_keeps_major_run :
  let b := Metrics.mk 100 "http://a/" 0 0 1 2 3 4 800 50 10 0 0 in
  let current := Metrics.mk 400 "http://a/" 0 0 1 2 3 4 800 50 10 0 0 in
  let th' := Thresholds.mk (Major.mk 200 1 1 1 500 30) (Minor.mk 20 5) in
  Laws.majorBelow defaultThresholds th'
  /\ exists r r' d d',
      detectChanges current 7 (Detector.mk (Some b) defaultThresholds) = inr (r, d)
      /\ detectChanges current 7 (Detector.mk (Some b) th') = inr (r', d')
      /\ (Result.level r' = Level.major -> Result.level r = Level.major).
Proof.
  assert (H : Laws.majorBelow defaultThresholds
                (Thresholds.mk (Major.mk 200 1 1 1 500 30) (Minor.mk 20 5)))
    by (unfold Laws.majorBelow; cbn; repeat split; discriminate).
  split; [exact H|].
  exact (raising_thresholds_keeps_major
           (Metrics.mk 400 "http://a/" 0 0 1 2 3 4 800 50 10 0 0)
           (Metrics.mk 100 "http://a/" 0 0 1 2 3 4 800 50 10 0 0)
           7 defaultThresholds _ H).
Defined.

(** *** The characters of the file name *)

Section FileNames.

Local Open Scope string_scope.

Lemma append_assoc (a b c : string) : (a ++ b) ++ c = a ++ (b ++ c).
Proof. induction a as [|x a IH]; cbn [append]; congruence. Qed.

Lemma replaceNonAlnum_fileChars (s : string) :
  Spec.allChars Laws.fileChar (Js.replaceNonAlnum s) = true.
Proof.
  induction s as [|c s IH]; cbn [Js.replaceNonAlnum Spec.allChars]; [reflexivity|].
  rewrite IH, andb_true_r. unfold Laws.fileChar.
  destruct (Js.isLowerAlnum c) eqn:E; [rewrite E|]; reflexivity.
Qed.

Lemma string_of_uint_fileChars (d : Decimal.uint) :
  Spec.allChars Laws.fileChar (NilEmpty.string_of_uint d) = true.
Proof. induction d; cbn [NilEmpty.string_of_uint Spec.allChars]; auto. Qed.

(** A timestamp prints as digits only. *)
Lemma numToString_fileChars (z : Z) :
  0 <= z -> Spec.allChars Laws.fileChar (Js.numToString z) = true.
Proof.
  intros Hz. unfold Js.numToString, NilZero.string_of_int.
  destruct z as [|p|p]; [reflexivity| |lia].
  cbn [Z.to_int]. unfold NilZero.string_of_uint.
  destruct (Pos.to_uint p); [reflexivity | exact (string_of_uint_fileChars _) ..].
Qed.

Lemma suggestedFilename_safe (lv : Level.t) (mr : list string) (now : Z)
    (name : string) :
  0 <= now ->
  suggestedFilename lv mr now = inr name ->
  Spec.allChars Laws.fileChar name = true
  /\ exists stem, name = stem ++ ".png".
Proof.
  intros Hnow. unfold suggestedFilename.
  destruct lv.
  - intros H. injection H as <-. split; [reflexivity|].
    exists "no_change". reflexivity.
  - intros H. injection H as <-. split.
    + change (Spec.allChars Laws.fileChar
                ("minor_change_" ++ Js.numToString now ++ ".png") = true).
      rewrite !allChars_app, (numToString_fileChars _ Hnow). reflexivity.
    + exists ("minor_change_" ++ Js.numToString now).
      rewrite append_assoc. reflexivity.
  - destruct (nth_error mr 0) as [r0|]; [|discriminate].
    intros H. injection H as <-. split.
    + change (Spec.allChars Laws.fileChar
                ("major_change_" ++ Js.replaceNonAlnum (Js.toLowerCase r0)
                   ++ "_" ++ Js.numToString now ++ ".png") = true).
      rewrite !allChars_app, replaceNonAlnum_fileChars,
        (numToString_fileChars _ Hnow). reflexivity.
    + exists ("major_change_" ++ Js.replaceNonAlnum (Js.toLowerCase r0)
                ++ "_" ++ Js.numToString now).
      rewrite !append_assoc. reflexivity.
Qed.

End FileNames.

(** X10. With a timestamp that is not negative, every suggested file name,
    on a first observation as on a later one, ends in [.png] and is made of
    lower-case letters, digits, underscores and dots only. *)
Theorem filename_is_safe (current : Metrics.t) (now : Z) (d : Detector.t) :
  0 <= now ->
  exists r d',
    detectChanges current now d = inr (r, d')
    /\ Spec.allChars Laws.fileChar (Result.suggestedFilename r) = true
    /\ exists stem, Result.suggestedFilename r = (stem ++ ".png")%string.
Proof.
  intros Hnow. destruct d as [[b|] th].
  - destruct (detectChanges_next current now th b) as (name & Hname & Hrun).
    do 2 eexists. split; [exact Hrun|].
    cbn [Result.suggestedFilename].
    exact (suggestedFilename_safe _ _ _ _ Hnow Hname).
  - do 2 eexists. split; [apply detectChanges_first|].
    split; [reflexivity|]. exists "baseline_set"%string. reflexivity.
Qed.

Lemma filename_is_safe_run :
  0 <= 1700000000000
  /\ exists r d',
      detectChanges (Metrics.mk 100 "http://a/" 1 0 1 2 3 4 800 50 10 0 0)
        1700000000000
        (Detector.mk (Some (Metrics.mk 100 "http://a/" 0 0 1 2 3 4 800 50 10 0 0))
           defaultThresholds)
      = inr (r, d')
      /\ Spec.allChars Laws.fileChar (Result.suggestedFilename r) = true
      /\ exists stem, Result.suggestedFilename r = (stem ++ ".png")%string.
Proof.
  assert (H : 0 <= 1700000000000) by lia.
  split; [exact H|].
  exact (filename_is_safe _ 1700000000000 _ H).
Defined.

(** *** How the operations compose *)

(** X11. [resetBaseline] right after [detectChanges] hands back the vector
    that was just classified as [previousBaseline], whatever the detector
    held before; a second [resetBaseline] finds nothing and changes
    nothing. *)
Theorem reset_returns_last_classified (v : Metrics.t) (now : Z) (d : Detector.t) :
  exists rep d',
    (detectChanges v now ;;; resetBaseline) d = inr (rep, d')
    /\ ResetReply.previousBaseline rep = Some v
    /\ d' = Detector.mk None (Detector.thresholds d)
    /\ resetBaseline d'
       = inr (ResetReply.mk true "Baseline reset" None, d').
Proof.
  destruct (detectChanges_state v now d) as [r Hr].
  do 2 eexists. split.
  - unfold bind at 1. rewrite Hr. apply resetBaseline_state.
  - repeat split.
Qed.

Lemma assignField_twice (t : Q) (a b : option Q) :
  assignField (assignField t a) b = assignField t (Laws.orElse b a).
Proof. destruct b; reflexivity. Qed.

Lemma assignMajor_overlay (t : Major.t) (p q : PartialMajor.t) :
  assignMajor (assignMajor t p) q = assignMajor t (Laws.overlayMajor p q).
Proof.
  unfold assignMajor, Laws.overlayMajor.
  cbn [Major.elementDelta Major.dialogDelta Major.overlayDelta Major.formDelta
       Major.zIndexDelta Major.viewportDelta
       PartialMajor.elementDelta PartialMajor.dialogDelta
       PartialMajor.overlayDelta PartialMajor.formDelta
       PartialMajor.zIndexDelta PartialMajor.viewportDelta].
  rewrite !assignField_twice. reflexivity.
Qed.

Lemma assignMinor_overlay (t : Minor.t) (p q : PartialMinor.t) :
  assignMinor (assignMinor t p) q = assignMinor t (Laws.overlayMinor p q).
Proof.
  unfold assignMinor, Laws.overlayMinor.
  cbn [Minor.elementDelta Minor.viewportDelta
       PartialMinor.elementDelta PartialMinor.viewportDelta].
  rewrite !assignField_twice. reflexivity.
Qed.

(** X12. Two [updateThresholds] in a row do what one does with the second
    argument laid over the first (field by field the later value wins, an
    earlier one survives where the later call is silent): same reply, same
    detector.  So an update repeated changes nothing more, and an update
    without tiers changes nothing. *)
Theorem updateThresholds_compose (p q : PartialThresholds.t) (d : Detector.t) :
  (updateThresholds p ;;; updateThresholds q) d
  = updateThresholds (Laws.overlay p q) d
  /\ (updateThresholds p ;;; updateThresholds p) d = updateThresholds p d
  /\ updateThresholds (PartialThresholds.mk None None) d
     = inr (UpdateReply.mk true (Detector.thresholds d), d).
Proof.
  assert (Hcomp : forall p q,
             (updateThresholds p ;;; updateThresholds q) d
             = updateThresholds (Laws.overlay p q) d).
  { clear p q. intros p q. unfold bind at 1.
    rewrite (updateThresholds_state p d). cbv zeta.
    rewrite !updateThresholds_state. cbv zeta.
    destruct d as [b [mj mn]], p as [[pj|] [pn|]], q as [[qj|] [qn|]];
      cbn [Detector.thresholds Detector.baseline Thresholds.major Thresholds.minor
           PartialThresholds.major PartialThresholds.minor
           Laws.overlay Laws.overlayTier];
      rewrite ?assignMajor_overlay, ?assignMinor_overlay; reflexivity. }
  split; [apply Hcomp|]. split.
  - rewrite Hcomp. rewrite !updateThresholds_state. cbv zeta.
    destruct d as [b [mj mn]], p as [[pj|] [pn|]];
      cbn [Detector.thresholds Detector.baseline Thresholds.major Thresholds.minor
           PartialThresholds.major PartialThresholds.minor
           Laws.overlay Laws.overlayTier];
      rewrite <- ?assignMajor_overlay, <- ?assignMinor_overlay;
      try (destruct pj as [[?|] [?|] [?|] [?|] [?|] [?|]]);
      try (destruct pn as [[?|] [?|]]); reflexivity.
  - rewrite updateThresholds_state. destruct d as [b [mj mn]]. reflexivity.
Qed.

(** Thresholds move with the updates of a session only. *)
Lemma run_thresholds (cs : list Call) :
  forall d1 d2,
    Detector.thresholds d1 = Detector.thresholds d2 ->
    exists d1' d2',
      run cs d1 = inr (tt, d1')
      /\ run (filter Laws.isUpdate cs) d2 = inr (tt, d2')
      /\ Detector.thresholds d1' = Detector.thresholds d2'
      /\ Detector.baseline d2' = Detector.baseline d2.
Proof.
  induction cs as [|c cs IH]; intros d1 d2 H.
  - exists d1, d2. repeat split. exact H.
  - destruct c as [m t|p|]; cbn [filter Laws.isUpdate run]; unfold call.
    + destruct (detectChanges_state m t d1) as [r Hr].
      destruct (IH (Detector.mk (Some m) (Detector.thresholds d1)) d2 H)
        as (d1' & d2' & H1 & H2 & H3).
      exists d1', d2'. split; [|split; assumption].
      unfold bind at 1. unfold bind at 1. rewrite Hr. exact H1.
    + destruct (IH (Detector.mk (Detector.baseline d1)
                      (UpdateReply.thresholds
                         match updateThresholds p d1 with
                         | inr (rep, _) => rep
                         | inl _ => UpdateReply.mk true (Detector.thresholds d1)
                         end))
                   (Detector.mk (Detector.baseline d2)
                      (UpdateReply.thresholds
                         match updateThresholds p d2 with
                         | inr (rep, _) => rep
                         | inl _ => UpdateReply.mk true (Detector.thresholds d2)
                         end)))
        as (d1' & d2' & H1 & H2 & H3 & H4).
      { rewrite !updateThresholds_state. cbv zeta.
        cbn [UpdateReply.thresholds Detector.thresholds]. rewrite H. reflexivity. }
      exists d1', d2'.
      rewrite !updateThresholds_state in H1, H2. cbv zeta in H1, H2.
      cbn [UpdateReply.thresholds] in H1, H2.
      split; [|split; [|split; [exact H3|exact H4]]].
      * unfold bind at 1. unfold bind at 1.
        rewrite updateThresholds_state. exact H1.
      * unfold bind at 1. unfold bind at 1.
        rewrite updateThresholds_state. exact H2.
    + destruct (IH (Detector.mk None (Detector.thresholds d1)) d2 H)
        as (d1' & d2' & H1 & H2 & H3).
      exists d1', d2'. split; [|split; assumption].
      unfold bind at 1. unfold bind at 1. rewrite resetBaseline_state. exact H1.
Qed.

(** The baseline moves with the other calls only. *)
Lemma run_baseline_only (cs : list Call) :
  forall d1 d2,
    Detector.baseline d1 = Detector.baseline d2 ->
    exists d1' d2',
      run cs d1 = inr (tt, d1')
      /\ run (filter (fun c => negb (Laws.isUpdate c)) cs) d2 = inr (tt, d2')
      /\ Detector.baseline d1' = Detector.baseline d2'
      /\ Detector.thresholds d2' = Detector.thresholds d2.
Proof.
  induction cs as [|c cs IH]; intros d1 d2 H.
  - exists d1, d2. repeat split. exact H.
  - destruct c as [m t|p|]; cbn [filter Laws.isUpdate negb run]; unfold call.
    + destruct (detectChanges_state m t d1) as [r1 Hr1].
      destruct (detectChanges_state m t d2) as [r2 Hr2].
      destruct (IH (Detector.mk (Some m) (Detector.thresholds d1))
                   (Detector.mk (Some m) (Detector.thresholds d2)) eq_refl)
        as (d1' & d2' & H1 & H2 & H3 & H4).
      exists d1', d2'. split; [|split; [|split; [exact H3|exact H4]]].
      * unfold bind at 1. unfold bind at 1. rewrite Hr1. exact H1.
      * unfold bind at 1. unfold bind at 1. rewrite Hr2. exact H2.
    + pose proof (updateThresholds_state p d1) as Hu. cbv zeta in Hu.
      match type of Hu with
      | _ = inr (_, ?dn) =>
          destruct (IH dn d2 H) as (d1' & d2' & H1 & H2 & H3 & H4)
      end.
      exists d1', d2'. split; [|split; [exact H2|split; [exact H3|exact H4]]].
      unfold bind at 1. unfold bind at 1. rewrite Hu. exact H1.
    + destruct (IH (Detector.mk None (Detector.thresholds d1))
                   (Detector.mk None (Detector.thresholds d2)) eq_refl)
        as (d1' & d2' & H1 & H2 & H3 & H4).
      exists d1', d2'. split; [|split; [|split; [exact H3|exact H4]]].
      * unfold bind at 1. unfold bind at 1. rewrite resetBaseline_state. exact H1.
      * unfold bind at 1. unfold bind at 1. rewrite resetBaseline_state. exact H2.
Qed.

(** X13. Thresholds and baseline live apart.  After any session the
    thresholds are those the [updateThresholds] calls alone would have left
    and the baseline is the one the [detectChanges] and [resetBaseline]
    calls alone would have left; the updates alone keep the baseline, the
    other calls alone keep the thresholds. *)
Theorem thresholds_and_baseline_apart (cs : list Call) (d : Detector.t) :
  exists d' du db,
    run cs d = inr (tt, d')
    /\ run (filter Laws.isUpdate cs) d = inr (tt, du)
    /\ run (filter (fun c => negb (Laws.isUpdate c)) cs) d = inr (tt, db)
    /\ Detector.thresholds d' = Detector.thresholds du
    /\ Detector.baseline d' = Detector.baseline db
    /\ Detector.baseline du = Detector.baseline d
    /\ Detector.thresholds db = Detector.thresholds d.
Proof.
  destruct (run_thresholds cs d d eq_refl) as (d1 & du & H1 & Hu & Ht & Hb).
  destruct (run_baseline_only cs d d eq_refl) as (d2 & db & H2 & Hd & Hbb & Htt).
  rewrite H1 in H2. injection H2 as <-.
  exists d1, du, db. repeat split; assumption.
Qed.

(** ** Properties of the page side of [getMetrics] *)

Lemma foldMax_ge_first (rest : list Z) :
  forall first, first <= fold_left Z.max rest first.
Proof.
  induction rest as [|x rest IH]; intros first; cbn [fold_left]; [lia|].
  specialize (IH (Z.max first x)). lia.
Qed.

Lemma foldMax_ge_each (rest : list Z) :
  forall first x, In x rest -> x <= fold_left Z.max rest first.
Proof.
  induction rest as [|y rest IH]; intros first x Hin; [contradiction|].
  cbn [fold_left]. destruct Hin as [->|Hin].
  - pose proof (foldMax_ge_first rest (Z.max first x)) as H. lia.
  - apply IH. exact Hin.
Qed.

Lemma foldMax_attained (rest : list Z) :
  forall first,
    fold_left Z.max rest first = first \/ In (fold_left Z.max rest first) rest.
Proof.
  induction rest as [|y rest IH]; intros first; cbn [fold_left]; [left; reflexivity|].
  destruct (IH (Z.max first y)) as [H|H].
  - rewrite H. destruct (Z.max_spec first y) as [[_ ->]|[_ ->]].
    + right. left. reflexivity.
    + left. reflexivity.
  - right. right. exact H.
Qed.

(** X14. [maxZIndex] either throws or floors at zero.  The spread passes
    one argument per element besides the 0: when the engine does not take
    that many, the call throws a [RangeError]; when it does, the figure is
    the largest parsed z-index of the page floored at zero: never negative,
    no element above it, zero or the z-index of some element, and 0 on a
    page whose z-indexes are all negative, zero or [auto]. *)
Theorem maxZIndex_floor (acceptsArguments : nat -> bool) (all : list Dom.Element) :
  match Dom.maxZIndex acceptsArguments all with
  | inl e => e = Js.RangeError /\ acceptsArguments (S (List.length all)) = false
  | inr m =>
      acceptsArguments (S (List.length all)) = true
      /\ 0 <= m
      /\ (forall el z, In el all -> Dom.zIndex el = Some z -> z <= m)
      /\ (m = 0 \/ exists el, In el all /\ Dom.zIndex el = Some m)
      /\ ((forall el z, In el all -> Dom.zIndex el = Some z -> z <= 0) -> m = 0)
  end.
Proof.
  unfold Dom.maxZIndex, Dom.mathMax. rewrite length_map.
  destruct (acceptsArguments (S (List.length all))); [|split; reflexivity].
  set (zs := map (fun el => Dom.orZero (Dom.zIndex el)) all).
  set (m := fold_left Z.max zs 0).
  assert (Hatt : m = 0 \/ exists el, In el all /\ Dom.zIndex el = Some m).
  { destruct (foldMax_attained zs 0) as [H|H]; [left; exact H|].
    fold m in H. subst zs. apply in_map_iff in H. destruct H as (el & Hz & Hin).
    destruct (Dom.zIndex el) as [z|] eqn:E; cbn [Dom.orZero] in Hz.
    - right. exists el. split; [exact Hin|]. rewrite E, Hz. reflexivity.
    - left. symmetry. exact Hz. }
  split; [reflexivity|]. split; [apply foldMax_ge_first|].
  split; [|split; [exact Hatt|]].
  - intros el z Hin Hz. apply foldMax_ge_each. subst zs.
    apply in_map_iff. exists el. split; [rewrite Hz; reflexivity|exact Hin].
  - intros Hneg. destruct Hatt as [H|(el & Hin & Hz)]; [exact H|].
    pose proof (Hneg el _ Hin Hz) as Hle.
    pose proof (foldMax_ge_first zs 0). fold m in H. lia.
Qed.

(** X15. The visible elements are counted among all elements: the count is
    between zero and [elements], and an element without extent (width or
    height not positive) is never counted. *)
Theorem visibleElements_bounded (innerHeight : Q) (all : list Dom.Element) :
  0 <= Dom.visibleElements innerHeight all <= Dom.elements all
  /\ ((forall el, In el all ->
         (Dom.width (Dom.rect el) <= 0 \/ Dom.height (Dom.rect el) <= 0)%Q) ->
      Dom.visibleElements innerHeight all = 0).
Proof.
  unfold Dom.visibleElements, Dom.elements. split.
  - pose proof (filter_length_le (Dom.isVisible innerHeight) all). lia.
  - intros H.
    assert (Hnil : filter (Dom.isVisible innerHeight) all = []).
    { induction all as [|el all IH]; [reflexivity|].
      cbn [filter].
      assert (Hv : Dom.isVisible innerHeight el = false).
      { unfold Dom.isVisible, Dom.gt.
        destruct (H el (or_introl eq_refl)) as [Hw|Hh].
        - apply Qle_bool_iff in Hw. rewrite Hw. reflexivity.
        - apply Qle_bool_iff in Hh. rewrite Hh, andb_false_r. reflexivity. }
      rewrite Hv. apply IH. intros e He. apply H. right. exact He. }
    rewrite Hnil. reflexivity.
Qed.

(** ** Properties of snapshotConfig.ts *)

(** X16. Snapshots are included unless the environment variable is set to
    exactly [false]: unset, empty, or any other spelling keeps them on. *)
Theorem includeSnapshots_off_only_by_false (env : option string) :
  (SnapshotConfig.includeSnapshots env = false <-> env = Some "false"%string)
  /\ SnapshotConfig.includeSnapshots None = true
  /\ SnapshotConfig.includeSnapshots (Some "False"%string) = true
  /\ SnapshotConfig.includeSnapshots (Some "0"%string) = true
  /\ SnapshotConfig.includeSnapshots (Some ""%string) = true.
Proof.
  split; [|repeat split].
  unfold SnapshotConfig.includeSnapshots.
  destruct env as [v|]; [|split; discriminate].
  destruct (String.eqb_spec v "false") as [->|Hne]; cbn [negb].
  - split; reflexivity.
  - split; [discriminate|]. intros H. injection H as ->. contradiction.
Qed.

(** ** Properties of the tools *)

Section ToolProperties.

Variable message : Js.Error -> string.

Local Open Scope string_scope.


(** X17. Before any initialisation the other three tools do nothing: on a
    page without detector every invocation in a sequence without [Init]
    answers with the one line asking for the initialisation, adds no code,
    raises no error and leaves the page without detector. *)
Theorem tools_need_init (invs : list Tools.Invocation) :
  forallb (fun i => negb (Tools.isInit i)) invs = true ->
  Tools.invokeAll message invs None
  = map (fun _ => Tools.mkOutcome [Tools.AddResult Tools.notInitialized] None None)
        invs.
Proof.
  induction invs as [|i invs IH]; cbn [forallb Tools.invokeAll map]; [reflexivity|].
  intros H. apply andb_true_iff in H. destruct H as [Hi Hrest].
  destruct i as [th|captured now| |th]; [discriminate| | |];
    cbn [Tools.invoke Tools.detectChanges Tools.resetChangeBaseline
         Tools.updateChangeThresholds Tools.page];
    rewrite (IH Hrest); reflexivity.
Qed.

(** X18. Initialisation starts over.  Its outcome does not depend on what
    the page held: an earlier detector, with its baseline and its
    thresholds, is replaced by a new one without baseline, whose thresholds
    are the defaults with the given ones applied.  The detection that
    follows is therefore a first observation: level [none], nothing
    reported, its vector stored. *)
Theorem init_starts_over (thresholds : option PartialThresholds.t)
    (pg : option Detector.t) (current : Metrics.t) (now : Z) :
  let o := Tools.initChangeDetector message thresholds pg in
  o = Tools.initChangeDetector message thresholds None
  /\ Tools.thrown o = None
  /\ exists d,
      Tools.page o = Some d
      /\ Detector.baseline d = None
      /\ match thresholds with
         | Some p => exists rep, updateThresholds p initial = inr (rep, d)
         | None => d = initial
         end
      /\ Tools.detectChanges message (inr current) now (Tools.page o)
         = Tools.mkOutcome
             [Tools.AddResult "Change detection completed: none level changes detected";
              Tools.AddResult "No significant changes detected";
              Tools.AddCode (Tools.CodeDetect (Spec.firstObservation current))]
             (Some (Detector.mk (Some current) (Detector.thresholds d)))
             None.
Proof.
  intros o. subst o. unfold Tools.initChangeDetector.
  destruct thresholds as [p|].
  - rewrite updateThresholds_state. cbv zeta.
    split; [reflexivity|]. split; [reflexivity|].
    eexists. split; [reflexivity|]. split; [reflexivity|].
    split; [eexists; reflexivity|reflexivity].
  - split; [reflexivity|]. split; [reflexivity|].
    exists initial. repeat split.
Qed.

(** X19. The report of a detection on an initialised page.  Without change
    it is two lines, the level [none] and [No significant changes
    detected]; with a change it is four lines, the level, the reasons joined
    by commas, the recommendations and the file name.  The recommendations
    always ask for a screenshot: the text [No screenshot needed] is never
    sent.  One code block with the result follows, the page keeps the new
    detector state and no error is raised. *)
Theorem detect_report (current : Metrics.t) (now : Z) (d : Detector.t) :
  exists r d',
    ChangeDetector.detectChanges current now d = inr (r, d')
    /\ Tools.detectChanges message (inr current) now (Some d)
       = Tools.mkOutcome
           (if Result.changed r then
              [Tools.AddResult ("Change detection completed: "
                                  ++ Tools.levelName (Result.level r)
                                  ++ " level changes detected");
               Tools.AddResult ("Reasons: " ++ Tools.join ", " (Result.reasons r));
               Tools.AddResult ("Recommendations: Take screenshot, "
                                  ++ (if Result.shouldTakeSnapshot r
                                      then "Take DOM snapshot"
                                      else "No DOM snapshot needed"));
               Tools.AddResult ("Suggested filename: " ++ Result.suggestedFilename r);
               Tools.AddCode (Tools.CodeDetect r)]
            else
              [Tools.AddResult "Change detection completed: none level changes detected";
               Tools.AddResult "No significant changes detected";
               Tools.AddCode (Tools.CodeDetect r)])
           (Some d') None.
Proof.
  destruct d as [[b|] th].
  - destruct (detectChanges_next current now th b) as (name & _ & Hrun).
    cbv zeta in Hrun.
    do 2 eexists. split; [exact Hrun|].
    unfold Tools.detectChanges. rewrite Hrun.
    cbn [Result.changed Result.level Result.shouldTakeScreenshot
         Result.shouldTakeSnapshot Result.reasons Result.suggestedFilename].
    destruct (level _ _); reflexivity.
  - do 2 eexists. split; [apply detectChanges_first|].
    unfold Tools.detectChanges. rewrite detectChanges_first. reflexivity.
Qed.


End ToolProperties.

(** X17 on a page never initialised: a detection, a reset and an update. *)
Lemma tools_need_init_run :
  let invs :=
    [Tools.Detect (inr (Metrics.mk 100 "http://a/" 0 0 1 2 3 4 800 50 10 0 0)) 7;
     Tools.Reset;
     Tools.Update (PartialThresholds.mk None None)] in
  forallb (fun i => negb (Tools.isInit i)) invs = true
  /\ Tools.invokeAll (fun _ => "error"%string) invs None
     = map (fun _ => Tools.mkOutcome [Tools.AddResult Tools.notInitialized] None None)
           invs.
Proof.
  split; [reflexivity|].
  exact (tools_need_init (fun _ => "error"%string)
           [Tools.Detect (inr (Metrics.mk 100 "http://a/" 0 0 1 2 3 4 800 50 10 0 0)) 7;
            Tools.Reset;
            Tools.Update (PartialThresholds.mk None None)]
           eq_refl).
Defined.
